(** * pychemqt, UI/inputTable.py: table data entry widgets

    A shallow embedding of the three classes of [UI/inputTable.py]
    ([eqDIPPR], [InputTableWidget], [InputTableDialog]) and the properties
    of them that the specification states.

    Python objects are records, methods are functions that take the object
    and return the updated object, exceptions are the [Raise] case of
    [result].  Qt classes the file uses ([QSpinBox], [QDialogButtonBox]) are
    modelled by the part of their documented behaviour the file relies on. *)

From Stdlib Require Import ZArith Ascii DecimalString.
From stdpp Require Import base gmap strings list.

Local Open Scope Z_scope.

(** ** Python exceptions and results *)

Inductive exn : Type :=
| OverflowError
| AttributeError (name : string)
| IndexError
| KeyError (key : string)
| OSError (fname : string)
| ValueError (args : list string).

Inductive result (A : Type) : Type :=
| Ok (a : A)
| Raise (e : exn).

Arguments Ok {A} a.
Arguments Raise {A} e.

(** [result] is a monad; stdpp's [x ← r; k] is the sequencing of Python
    statements, the first exception ending the run. *)
#[global] Instance result_ret : MRet result := λ A a, Ok a.

#[global] Instance result_bind : MBind result := λ A B k r,
  match r with
  | Ok a => k a
  | Raise e => Raise e
  end.

Definition is_Ok {A : Type} (r : result A) : Prop := ∃ a, r = Ok a.

(** Rocq strings have no escapes: Python's ["\n"] and ["\t"]. *)
Definition LF : string := String "010"%char "".
Definition TAB : string := String "009"%char "".

(** ** QSpinBox *)

(** PyQt hands a Python [int] to Qt as a C [int]; a value outside the
    32-bit range raises [OverflowError] before the method runs. *)
Definition to_cint (v : Z) : result Z :=
  if bool_decide (-2147483648 ≤ v ∧ v ≤ 2147483647) then Ok v
  else Raise OverflowError.

Module QSpinBox.

Record t : Type := mk { minimum : Z; maximum : Z; value : Z }.

(** [QSpinBox()]: range 0..99, value 0. *)
Definition new : t := {| minimum := 0; maximum := 99; value := 0 |}.

(** Qt's [qBound(minimum, v, maximum)]. *)
Definition bound (sb : t) (v : Z) : Z :=
  Z.max (minimum sb) (Z.min (maximum sb) v).

(** The C++ [setValue]: the value is bounded to the range, and
    [valueChanged] is emitted (second component) when it changed. *)
Definition setValue_c (v : Z) (sb : t) : t * list Z :=
  let v' := bound sb v in
  if bool_decide (v' = value sb) then (sb, [])
  else ({| minimum := minimum sb; maximum := maximum sb; value := v' |}, [v']).

(** The C++ [setRange]: a maximum below the minimum is raised to it, then
    the current value is bounded to the new range. *)
Definition setRange_c (lo hi : Z) (sb : t) : t * list Z :=
  setValue_c (value sb)
    {| minimum := lo; maximum := Z.max lo hi; value := value sb |}.

Definition setValue (v : Z) (sb : t) : result (t * list Z) :=
  c ← to_cint v; Ok (setValue_c c sb).

Definition setRange (lo hi : Z) (sb : t) : result (t * list Z) :=
  l ← to_cint lo; h ← to_cint hi; Ok (setRange_c l h sb).

End QSpinBox.

(** ** Python values a property can return *)

Inductive qmethod : Type := QSpinBox_value.

Inductive pyobj : Type :=
| PyInt (z : Z)
| PyBoundMethod (m : qmethod).

(** ** class eqDIPPR *)

Module eqDIPPR.

(** The widget keeps one attribute, the spin box [self.eqDIPPR]; the label,
    the alignment, the width and the tool tip do not enter any method. *)
Record t : Type := mk { eqDIPPR : QSpinBox.t }.

(** [__init__(self, value)]: no slot is connected to the spin box yet, so
    the signals of the two calls are dropped. *)
Definition __init__ (value : Z) : result t :=
  let sb := QSpinBox.new in
  r1 ← QSpinBox.setValue value sb;
  r2 ← QSpinBox.setRange 1 9 (fst r1);
  Ok (mk (fst r2)).

(** The [value] property: [return self.eqDIPPR.value], the attribute
    [value] of the spin box, which is its bound method. *)
Definition value (w : t) : pyobj := PyBoundMethod QSpinBox_value.

(** Calling a Python object: the bound method [QSpinBox.value] of the
    widget's spin box returns the current value; an [int] is not
    callable. *)
Definition call (w : t) (o : pyobj) : option pyobj :=
  match o with
  | PyBoundMethod QSpinBox_value => Some (PyInt (QSpinBox.value (eqDIPPR w)))
  | PyInt _ => None
  end.

(** [setValue(self, value)], with the [valueChanged] emissions. *)
Definition setValue (value : Z) (w : t) : result (t * list Z) :=
  r ← QSpinBox.setValue value (eqDIPPR w); Ok (mk (fst r), snd r).

(** [clear(self)]: the spin box clears its text, not its value. *)
Definition clear (w : t) : t := w.

(** A call that raises leaves the widget as it was. *)
Definition after_setValue (value : Z) (w : t) : t :=
  match setValue value w with
  | Ok r => fst r
  | Raise _ => w
  end.

End eqDIPPR.

(** ** The collaborators of InputTableWidget *)

(** What [numpy.loadtxt] returns: an array of dimension 0, 1 or 2. *)
Inductive ndarray (V : Type) : Type :=
| Arr0 (v : V)
| Arr1 (l : list V)
| Arr2 (rows : list (list V)).

Arguments Arr0 {V} v.
Arguments Arr1 {V} l.
Arguments Arr2 {V} rows.

(** The methods of [UI.widgets.Tabla] (a [QTableWidget]) that the file
    calls.  The class is not part of this file: it is an interface here, and
    the widget is verified for every implementation of it.  A header item
    is given by its text, [None] when the column has no header item. *)
Class Tabla (V T : Type) : Type := {
  Tabla_init : nat → list string → T;
  setConnected : T → T;
  setData : ndarray V → T → T;
  addRow : T → T;
  setColumn : nat → list V → T → T;
  setRowCount : nat → T → T;
  clearContents : T → T;
  columnCount : T → nat;
  horizontalHeaderItem : T → nat → option string;
  getData : T → list (list V)
}.

(** What the methods act on besides the widget: the environment variables,
    the files (path to contents), the message boxes shown and the URLs
    handed to the desktop, the latest first.  Every path can be written;
    reading a path that has no file raises [OSError]. *)
Record world : Type := mkWorld {
  environ : gmap string string;
  fs : gmap string string;
  critical : list (string * string);
  openUrl : list string
}.

Definition write_file (fname contents : string) (σ : world) : world :=
  {| environ := environ σ; fs := <[fname := contents]> (fs σ);
     critical := critical σ; openUrl := openUrl σ |}.

Definition QMessageBox_critical (title msg : string) (σ : world) : world :=
  {| environ := environ σ; fs := fs σ;
     critical := (title, msg) :: critical σ; openUrl := openUrl σ |}.

Definition QDesktopServices_openUrl (url : string) (σ : world) : world :=
  {| environ := environ σ; fs := fs σ;
     critical := critical σ; openUrl := url :: openUrl σ |}.

Definition os_environ (key : string) (σ : world) : result string :=
  match environ σ !! key with
  | Some v => Ok v
  | None => Raise (KeyError key)
  end.

(** [value in (7, 9)] *)
Definition in_7_9 (value : Z) : bool := bool_decide (value ∈ [7; 9]).

Record QLabel : Type := mkLabel { text : string; label_visible : bool }.

Record Entrada_con_unidades (V : Type) : Type :=
  mkEntrada { entrada_value : option V; entrada_visible : bool }.

Arguments mkEntrada {V} _ _.
Arguments entrada_value {V} _.
Arguments entrada_visible {V} _.

(** The slots connected in this file to the spin box's [valueChanged]. *)
Inductive spin_slot : Type := slot_showTc.

(** ** class InputTableWidget *)

Module InputTableWidget.
Section with_tabla.

Context {V T : Type} `{!Tabla V T}.

(** Python's [str] on a table value. *)
Variable str : V → string.
(** [numpy.loadtxt] on the contents of a file. *)
Variable loadtxt : string → result (ndarray V).
(** [QApplication.translate(context, text)]. *)
Variable translate : string → string → string.

(** The attributes that exist only when [DIPPR] was true. *)
Record dippr : Type := mkDippr {
  eqDIPPR : eqDIPPR.t;
  valueChanged : list spin_slot;
  labelTc : QLabel;
  tc : Entrada_con_unidades V
}.

Record widget : Type := mk {
  columnas : nat;
  title : string;
  tabla : T;
  section : option dippr
}.

(** [showTc(self, value)] *)
Definition showTc (value : Z) (w : widget) : result widget :=
  match section w with
  | None => Raise (AttributeError "labelTc")
  | Some d =>
      let labelTc' := mkLabel (text (labelTc d)) (in_7_9 value) in
      let tc' := mkEntrada (entrada_value (tc d)) (in_7_9 value) in
      Ok (mk (columnas w) (title w) (tabla w)
            (Some (mkDippr (eqDIPPR d) (valueChanged d) labelTc' tc')))
  end.

Definition run_slot (s : spin_slot) (value : Z) (w : widget)
    : result widget :=
  match s with
  | slot_showTc => showTc value w
  end.

(** Delivery of the [valueChanged(int)] emissions of the spin box to the
    slots connected to it, in order. *)
Fixpoint deliver (slots : list spin_slot) (value : Z) (w : widget)
    : result widget :=
  match slots with
  | [] => Ok w
  | s :: rest => w' ← run_slot s value w; deliver rest value w'
  end.

Fixpoint emit (values : list Z) (w : widget) : result widget :=
  match values with
  | [] => Ok w
  | v :: rest =>
      match section w with
      | None => Ok w
      | Some d => w' ← deliver (valueChanged d) v w; emit rest w'
      end
  end.

(** A change of the spin box, by the user or by [eqDIPPR.setValue]: the
    spin box takes the value, then its signal is delivered. *)
Definition spin_setValue (value : Z) (w : widget) : result widget :=
  match section w with
  | None => Raise (AttributeError "eqDIPPR")
  | Some d =>
      r ← eqDIPPR.setValue value (eqDIPPR d);
      emit (snd r)
        (mk (columnas w) (title w) (tabla w)
           (Some (mkDippr (fst r) (valueChanged d) (labelTc d) (tc d))))
  end.

(** Truth value of a Python list or [None]. *)
Definition truthy {A : Type} (l : list A) : bool :=
  match l with [] => false | _ => true end.

(** [__init__]; [data] is [None] or the rows, [parent] takes no part. *)
Definition __init__ (columnas : nat) (data : option (list (list V)))
    (t property : list V) (horizontalHeader : list string) (title : string)
    (DIPPR : bool) (hasTc : Z) (Tc : option V) (eq : Z) (σ : world)
    : result widget :=
  _ ← os_environ "pychemqt" σ;
  let tabla := setConnected (Tabla_init columnas horizontalHeader) in
  let tabla :=
    match data with
    | Some (r :: rows) => addRow (setData (Arr2 (r :: rows)) tabla)
    | _ =>
        if truthy t && truthy property
        then setColumn 1 property (setColumn 0 t tabla)
        else tabla
    end in
  if DIPPR then
    e ← eqDIPPR.__init__ eq;
    let d := mkDippr e [slot_showTc] (mkLabel "Tc: " true)
               (mkEntrada Tc true) in
    showTc 1 (mk columnas title tabla (Some d))
  else Ok (mk columnas title tabla None).

(** The state a method leaves: the object and the world persist when an
    exception leaves the method. *)
Record outcome : Type := mkOutcome {
  self : widget;
  after : world;
  raised : option exn
}.

Definition set_tabla (tabla' : T) (w : widget) : widget :=
  mk (columnas w) (title w) tabla' (section w).

(** [delete(self)] *)
Definition delete (w : widget) : widget :=
  set_tabla (addRow (clearContents (setRowCount 0%nat (tabla w)))) w.

(** The [data] property. *)
Definition data (w : widget) : list (list V) := getData (tabla w).

(** [open(self)]; [fname] is what the file dialog returned, empty when the
    user cancelled it.  Opening a missing file raises [OSError], which the
    [except ValueError] clause does not catch, like any other exception
    of the loader. *)
Definition open (fname : string) (w : widget) (σ : world) : outcome :=
  if bool_decide (fname = "") then mkOutcome w σ None
  else
    match fs σ !! fname with
    | None => mkOutcome w σ (Some (OSError fname))
    | Some file =>
        match loadtxt file with
        | Ok data =>
            let w' := delete w in
            mkOutcome (set_tabla (setData data (tabla w')) w') σ None
        | Raise (ValueError args) =>
            let title := translate "pychemqt" "Failed to load file" in
            match args !! 0%nat with
            | None => mkOutcome w σ (Some IndexError)
            | Some er =>
                let msg := (fname +:+ LF) +:+ er in
                mkOutcome w (QMessageBox_critical title msg σ) None
            end
        | Raise e => mkOutcome w σ (Some e)
        end
    end.

(** The loops of [save], over [range(...)]; [file] is the text written
    so far, kept when an exception ends the loop. *)
Fixpoint write_headers (tabla : T) (range : list nat) (file : string)
    : string * option exn :=
  match range with
  | [] => (file, None)
  | i :: range' =>
      match horizontalHeaderItem tabla i with
      | None => (file, Some (AttributeError "text"))
      | Some item => write_headers tabla range' (file +:+ (item +:+ TAB))
      end
  end.

Fixpoint write_row (row : list V) (range : list nat) (file : string)
    : string * option exn :=
  match range with
  | [] => (file, None)
  | columna :: range' =>
      match row !! columna with
      | None => (file, Some IndexError)
      | Some v => write_row row range' (file +:+ (str v +:+ TAB))
      end
  end.

Fixpoint write_rows (data : list (list V)) (range : list nat)
    (columnCount : nat) (file : string) : string * option exn :=
  match range with
  | [] => (file, None)
  | fila :: range' =>
      match data !! fila with
      | None => (file, Some IndexError)
      | Some row =>
          match write_row row (seq 0 columnCount) file with
          | (file', None) =>
              write_rows data range' columnCount (file' +:+ LF)
          | stopped => stopped
          end
      end
  end.

(** [save(self)]; [fname] as in [open].  Mode ['w'] replaces the file. *)
Definition save (fname : string) (w : widget) (σ : world) : outcome :=
  if bool_decide (fname = "") then mkOutcome w σ None
  else
    let file := ("#" +:+ title w) +:+ LF in
    let file := file +:+ "#" in
    match write_headers (tabla w) (seq 0 (columnCount (tabla w))) file with
    | (file, Some e) => mkOutcome w (write_file fname file σ) (Some e)
    | (file, None) =>
        let file := file +:+ LF in
        let data := data w in
        let '(file, e) :=
          write_rows data (seq 0 (length data)) (columnCount (tabla w)) file in
        mkOutcome w (write_file fname file σ) e
    end.

End with_tabla.
End InputTableWidget.

(** ** QDialogButtonBox *)

Module QDialogButtonBox.

(** The [StandardButton] flags. *)
Definition Ok : Z := 0x00000400.
Definition Save : Z := 0x00000800.
Definition SaveAll : Z := 0x00001000.
Definition Open : Z := 0x00002000.
Definition Yes : Z := 0x00004000.
Definition YesToAll : Z := 0x00008000.
Definition No : Z := 0x00010000.
Definition NoToAll : Z := 0x00020000.
Definition Abort : Z := 0x00040000.
Definition Retry : Z := 0x00080000.
Definition Ignore : Z := 0x00100000.
Definition Close : Z := 0x00200000.
Definition Cancel : Z := 0x00400000.
Definition Discard : Z := 0x00800000.
Definition Help : Z := 0x01000000.
Definition Apply : Z := 0x02000000.
Definition Reset : Z := 0x04000000.
Definition RestoreDefaults : Z := 0x08000000.

Inductive signal : Type := accepted | rejected | helpRequested.

(** The buttons of the box as a flag word, and the slots connected to
    each of its signals, the latest connected first. *)
Record t (slot : Type) : Type := mk {
  standardButtons : Z;
  connections : list (signal * slot)
}.

Arguments mk {slot} _ _.
Arguments standardButtons {slot} _.
Arguments connections {slot} _.

(** [QDialogButtonBox(buttons)] *)
Definition new {slot : Type} (buttons : Z) : t slot := mk buttons [].

(** [addButton(button)] *)
Definition addButton {slot : Type} (button : Z) (bb : t slot) : t slot :=
  mk (Z.lor (standardButtons bb) button) (connections bb).

(** [signal.connect(slot)] *)
Definition connect {slot : Type} (s : signal) (f : slot) (bb : t slot)
    : t slot :=
  mk (standardButtons bb) ((s, f) :: connections bb).

(** The box has the standard button [button]. *)
Definition has {slot : Type} (button : Z) (bb : t slot) : bool :=
  negb (Z.land (standardButtons bb) button =? 0).

(** The buttons of [AcceptRole] and [YesRole], and those of [RejectRole]
    and [NoRole]. *)
Definition accepting : list Z :=
  [Ok; Open; Save; SaveAll; Retry; Ignore; Yes; YesToAll].

Definition rejecting : list Z := [Cancel; Close; Abort; No; NoToAll].

(** The signal that the box emits, beside [clicked], for a standard
    button: [accepted] for a button of [AcceptRole] or [YesRole],
    [rejected] for one of [RejectRole] or [NoRole], [helpRequested] for
    Help, of [HelpRole]; none for Discard, Apply, Reset and
    RestoreDefaults. *)
Definition role_signal (button : Z) : option signal :=
  if bool_decide (button ∈ accepting) then Some accepted
  else if bool_decide (button ∈ rejecting) then Some rejected
  else if bool_decide (button = Help) then Some helpRequested
  else None.

#[global] Instance signal_eq_dec : EqDecision signal.
Proof. solve_decision. Defined.

(** The slots a click on [button] runs, in the order of connection. *)
Definition clicked {slot : Type} (button : Z) (bb : t slot) : list slot :=
  if has button bb then
    match role_signal button with
    | Some s => (filter (λ c, c.1 = s) (reverse (connections bb))).*2
    | None => []
    end
  else [].

End QDialogButtonBox.

(** ** class InputTableDialog *)

Module InputTableDialog.
Section with_tabla.

Context {V T : Type} `{!Tabla V T}.

Variable translate : string → string → string.

(** The keyword arguments [**kwargs], an absent keyword being [None]:
    [title] is read by the dialog, and all of them are passed on to
    [InputTableWidget], whose defaults fill the absent ones. *)
Record kwargs : Type := mkKwargs {
  kw_data : option (list (list V));
  kw_t : option (list V);
  kw_property : option (list V);
  kw_horizontalHeader : option (list string);
  kw_title : option string;
  kw_DIPPR : option bool;
  kw_hasTc : option Z;
  kw_Tc : option V;
  kw_eq : option Z
}.

(** The slots of the dialog that the button box is connected to. *)
Inductive slot : Type := accept | reject | ayuda.

(** The part of the base class [QDialog] that the file acts on: the
    window title, and what [QDialog.result()] reports once the dialog was
    closed by [accept] (1, [Accepted]) or [reject] (0, [Rejected]). *)
Record QDialog : Type := mkQDialog {
  windowTitle : string;
  result_code : option Z
}.

(** [QDialog(parent)] *)
Definition QDialog_new : QDialog := mkQDialog "" None.

Definition setWindowTitle (title : string) (q : QDialog) : QDialog :=
  mkQDialog title (result_code q).

Definition close_with (code : Z) (q : QDialog) : QDialog :=
  mkQDialog (windowTitle q) (Some code).

Record dialog : Type := mk {
  base : QDialog;
  helpFile : string;
  widget : @InputTableWidget.widget V T;
  buttonBox : QDialogButtonBox.t slot
}.

(** [InputTableWidget(columnas, **kwargs)] *)
Definition make_widget (columnas : nat) (kw : kwargs) (σ : world)
    : result (@InputTableWidget.widget V T) :=
  InputTableWidget.__init__ columnas (kw_data kw) (default [] (kw_t kw))
    (default [] (kw_property kw)) (default [] (kw_horizontalHeader kw))
    (default "" (kw_title kw)) (default false (kw_DIPPR kw))
    (default 0 (kw_hasTc kw)) (kw_Tc kw) (default 1 (kw_eq kw)) σ.

(** [__init__(self, columnas=2, help=False, helpFile="", **kwargs)] *)
Definition __init__ (columnas : nat) (help : bool) (helpFile : string)
    (kw : kwargs) (σ : world) : result dialog :=
  let self := QDialog_new in
  let title := default "" (kw_title kw) in
  let self := setWindowTitle title self in
  let self :=
    setWindowTitle (translate "pychemqt" "Moody diagram configuration") self in
  widget ← make_widget columnas kw σ;
  let buttonBox :=
    QDialogButtonBox.new
      (Z.lor QDialogButtonBox.Cancel QDialogButtonBox.Ok) in
  let buttonBox :=
    if help then
      QDialogButtonBox.connect QDialogButtonBox.helpRequested ayuda
        (QDialogButtonBox.addButton QDialogButtonBox.Help buttonBox)
    else buttonBox in
  let buttonBox :=
    QDialogButtonBox.connect QDialogButtonBox.accepted accept buttonBox in
  let buttonBox :=
    QDialogButtonBox.connect QDialogButtonBox.rejected reject buttonBox in
  Ok (mk self helpFile widget buttonBox).

(** [ayuda(self)], and Qt's [accept] and [reject]. *)
Definition run_slot (s : slot) (st : dialog * world) : dialog * world :=
  let '(dlg, σ) := st in
  match s with
  | accept =>
      (mk (close_with 1 (base dlg)) (helpFile dlg) (widget dlg)
         (buttonBox dlg), σ)
  | reject =>
      (mk (close_with 0 (base dlg)) (helpFile dlg) (widget dlg)
         (buttonBox dlg), σ)
  | ayuda => (dlg, QDesktopServices_openUrl (helpFile dlg) σ)
  end.

(** The user presses the standard button [button] of the button box. *)
Definition press (button : Z) (dlg : dialog) (σ : world) : dialog * world :=
  foldl (λ st s, run_slot s st) (dlg, σ)
    (QDialogButtonBox.clicked button (buttonBox dlg)).

End with_tabla.
End InputTableDialog.

(** ** The numeric text loader *)

Module Loadtxt.
Section with_float.

Context {V : Type}.

(** Python's [float] on a token, [None] when it raises [ValueError]. *)
Variable float : string → option V.

(** The characters that [split()] takes for white space, the line being
    decoded as Latin-1: space, tab, line feed, vertical tab, form feed,
    carriage return, the separators 28 to 31, next line and no-break
    space. *)
Definition is_space (c : ascii) : bool :=
  bool_decide
    (c ∈ [" "; "009"; "010"; "011"; "012"; "013"; "028"; "029"; "030";
          "031"; "133"; "160"]%char).

Definition is_LF (c : ascii) : bool := bool_decide (c = "010"%char).

Definition is_hash (c : ascii) : bool := bool_decide (c = "#"%char).

(** The lines of a file, each without its line feed. *)
Fixpoint lines (s : string) : list string :=
  match s with
  | EmptyString => [EmptyString]
  | String c s' =>
      if is_LF c then EmptyString :: lines s'
      else
        match lines s' with
        | l :: ls => String c l :: ls
        | [] => [String c EmptyString]
        end
  end.

(** A line up to its first ['#']. *)
Fixpoint strip_comment (s : string) : string :=
  match s with
  | EmptyString => EmptyString
  | String c s' =>
      if is_hash c then EmptyString else String c (strip_comment s')
  end.

(** [line.split()]: the maximal runs without white space; [cur] is the run
    being read. *)
Fixpoint split (cur : string) (s : string) : list string :=
  match s with
  | EmptyString => if bool_decide (cur = EmptyString) then [] else [cur]
  | String c s' =>
      if is_space c then
        if bool_decide (cur = EmptyString) then split EmptyString s'
        else cur :: split EmptyString s'
      else split (cur +:+ String c EmptyString) s'
  end.

Fixpoint floats (tokens : list string) : result (list V) :=
  match tokens with
  | [] => Ok []
  | tok :: rest =>
      match float tok with
      | None =>
          Raise (ValueError ["could not convert string to float: " +:+ tok])
      | Some v => vs ← floats rest; Ok (v :: vs)
      end
  end.

(** The rows of the lines that have a token left outside comments. *)
Fixpoint read_rows (ls : list string) : result (list (list V)) :=
  match ls with
  | [] => Ok []
  | line :: rest =>
      match split EmptyString (strip_comment line) with
      | [] => read_rows rest
      | tokens =>
          row ← floats tokens; rows ← read_rows rest; Ok (row :: rows)
      end
  end.

Definition same_columns (rows : list (list V)) : bool :=
  match rows with
  | [] => true
  | first :: _ => forallb (λ row, (length row =? length first)%nat) rows
  end.

(** The array of the rows read: axes of length one are dropped (the
    default [ndmin=0]), no row at all gives an empty array of dimension 1. *)
Definition squeeze (rows : list (list V)) : ndarray V :=
  match rows with
  | [] => Arr1 []
  | [[v]] => Arr0 v
  | [row] => Arr1 row
  | _ =>
      if forallb (λ row, (length row =? 1)%nat) rows then Arr1 (concat rows)
      else Arr2 rows
  end.

(** Modelled from the spec: [numpy.loadtxt] is imported, not defined, by
    the file; the spec has it as a whitespace-delimited numeric file loader
    that skips ['#'] lines as comments.  Rows of different lengths and
    tokens that are no numbers raise [ValueError]. *)
Definition loadtxt (file : string) : result (ndarray V) :=
  rows ← read_rows (lines file);
  if same_columns rows then Ok (squeeze rows)
  else Raise (ValueError ["Wrong number of columns"]).

End with_float.
End Loadtxt.

(** ** An implementation of the interfaces, for the examples *)

Module Example.

(** Table values are the floats that are whole numbers, as [Z]: [str]
    prints them as Python does below 10^16 ([str(3.0)] is ["3.0"]), and
    [float] reads a signed decimal integer with or without the fraction
    [".0"]. *)
Definition str (z : Z) : string :=
  NilZero.string_of_int (Z.to_int z) +:+ ".0".

Fixpoint drop_point_zero (s : string) : string :=
  match s with
  | EmptyString => EmptyString
  | String c s' =>
      if bool_decide (String c s' = ".0") then EmptyString
      else String c (drop_point_zero s')
  end.

Definition float (tok : string) : option Z :=
  Z.of_int <$> NilZero.int_of_string (drop_point_zero tok).

(** Modelled from the spec: the table-grid component [Tabla] is defined
    elsewhere ([UI/widgets.py]) and the spec leaves it out of scope.  In this
    instance a table is its column count, its header texts and its rows of
    values; the blank entry row that [addRow] appends holds no value and is
    not kept, and only an array of dimension 2 has rows to show. *)
Record grid : Type := mkGrid {
  grid_columns : nat;
  grid_header : list string;
  grid_rows : list (list Z)
}.

Definition grid_setData (a : ndarray Z) (g : grid) : grid :=
  match a with
  | Arr2 rows => mkGrid (grid_columns g) (grid_header g) rows
  | _ => g
  end.

Definition grid_setColumn (i : nat) (col : list Z) (g : grid) : grid :=
  mkGrid (grid_columns g) (grid_header g)
    (zip_with (λ v row, <[i := v]> row) col (grid_rows g)).

#[global] Instance grid_tabla : Tabla Z grid := {|
  Tabla_init columnas horizontalHeader := mkGrid columnas horizontalHeader [];
  setConnected g := g;
  setData := grid_setData;
  addRow g := g;
  setColumn := grid_setColumn;
  setRowCount n g :=
    mkGrid (grid_columns g) (grid_header g) (take n (grid_rows g));
  clearContents g := mkGrid (grid_columns g) (grid_header g) [];
  columnCount := grid_columns;
  horizontalHeaderItem g i :=
    if bool_decide (i < grid_columns g)%nat then grid_header g !! i else None;
  getData := grid_rows
|}.

(** [QApplication.translate] with no translation installed. *)
Definition translate (context text : string) : string := text.

Definition loadtxt : string → result (ndarray Z) := Loadtxt.loadtxt float.

(** A world with the environment variable of the program set, and a table
    of two columns and two rows. *)
Definition σ0 : world :=
  {| environ := {["pychemqt" := "/opt/pychemqt"]}; fs := ∅;
     critical := []; openUrl := [] |}.

Definition table : grid :=
  mkGrid 2 ["T"; "P"] [[3; 4]; [5; 6]].

End Example.

(** ** Vocabulary of the properties *)

(** The spin box offers the nine equations and holds one of them. *)
Definition selects_equation (sb : QSpinBox.t) : Prop :=
  QSpinBox.minimum sb = 1 ∧ QSpinBox.maximum sb = 9 ∧
  1 ≤ QSpinBox.value sb ≤ 9.

(** The widget after a sequence of [setValue] calls. *)
Definition after_calls (w : eqDIPPR.t) (calls : list Z) : eqDIPPR.t :=
  foldl (λ w v, eqDIPPR.after_setValue v w) w calls.

(** The Tc label and the Tc entry are shown exactly when the equation in
    the spin box is 7 or 9. *)
Definition Tc_follows_equation {V T : Type}
    (w : @InputTableWidget.widget V T) : Prop :=
  ∃ d, InputTableWidget.section w = Some d ∧
    label_visible (InputTableWidget.labelTc d)
      = in_7_9 (QSpinBox.value (eqDIPPR.eqDIPPR (InputTableWidget.eqDIPPR d))) ∧
    entrada_visible (InputTableWidget.tc d)
      = in_7_9 (QSpinBox.value (eqDIPPR.eqDIPPR (InputTableWidget.eqDIPPR d))).

(** The widget that [InputTableWidget(2, horizontalHeader=["T", "P"],
    DIPPR=True, eq=7)] constructs: the spin box is at 7, Tc is hidden. *)
Definition widget_eq7 : @InputTableWidget.widget Z Example.grid :=
  InputTableWidget.mk 2%nat ""
    (Example.mkGrid 2 ["T"; "P"] [])
    (Some (InputTableWidget.mkDippr (eqDIPPR.mk (QSpinBox.mk 1 9 7))
             [slot_showTc] (mkLabel "Tc: " false) (mkEntrada None false))).

(** A widget without DIPPR section around the example table, and a world
    with a file that is no table of numbers and a file that is one. *)
Definition widget_table : @InputTableWidget.widget Z Example.grid :=
  InputTableWidget.mk 2%nat "t" Example.table None.

Definition world_files : world :=
  {| environ := {["pychemqt" := "/opt/pychemqt"]};
     fs := <["bad.txt" := "1 x"]>
             {["good.txt" := "7 8" +:+ LF +:+ "9 10" +:+ LF]};
     critical := []; openUrl := [] |}.

(** The keyword arguments of the example at the end of the file:
    [horizontalHeader], [title] and [DIPPR=True]. *)
Definition kwargs_main : @InputTableDialog.kwargs Z :=
  {| InputTableDialog.kw_data := None;
     InputTableDialog.kw_t := None;
     InputTableDialog.kw_property := None;
     InputTableDialog.kw_horizontalHeader := Some ["d"; "x"; "X"];
     InputTableDialog.kw_title := Some "Solids size distribution";
     InputTableDialog.kw_DIPPR := Some true;
     InputTableDialog.kw_hasTc := None;
     InputTableDialog.kw_Tc := None;
     InputTableDialog.kw_eq := None |}.

(** The strings of a list, one after the other. *)
Definition cat (l : list string) : string := foldr String.append "" l.

(** The file as the specification words it: a first line of ['#'] and the
    title, a second line of ['#'] and the header texts, each followed by a
    tab, then one line for each row, of the string forms of its values,
    each followed by a tab. *)
Definition header_and_data {V : Type} (str : V → string) (title : string)
    (headers : list string) (rows : list (list V)) : string :=
  "#" +:+ title +:+ LF +:+
  "#" +:+ cat ((λ h, h +:+ TAB) <$> headers) +:+ LF +:+
  cat ((λ row, cat ((λ v, str v +:+ TAB) <$> row) +:+ LF) <$> rows).

(** Every character of a string passes a test. *)
Fixpoint string_forall (P : ascii → bool) (s : string) : bool :=
  match s with
  | EmptyString => true
  | String c s' => P c && string_forall P s'
  end.

(** A text without line break: neither line feed nor carriage return. *)
Definition one_line (s : string) : bool :=
  string_forall (λ c, negb (bool_decide (c ∈ ["010"; "013"]%char))) s.

(** A string that [split()] returns as it is, with no comment sign: not
    empty, without white space and without ['#']. *)
Definition clean_token (s : string) : bool :=
  negb (bool_decide (s = "")) &&
  string_forall (λ c, negb (Loadtxt.is_space c) && negb (Loadtxt.is_hash c)) s.

(** A value whose string form is a clean token that [float] reads back. *)
Definition prints_and_reads {V : Type} (str : V → string)
    (float : string → option V) (v : V) : Prop :=
  clean_token (str v) = true ∧ float (str v) = Some v.

(** [save] into a file, then [open] of the same file. *)
Definition save_then_open {V T : Type} `{!Tabla V T} (str : V → string)
    (float : string → option V) (translate : string → string → string)
    (fname : string) (w : @InputTableWidget.widget V T) (σ : world)
    : @InputTableWidget.outcome V T :=
  let saved := InputTableWidget.save str fname w σ in
  InputTableWidget.open (Loadtxt.loadtxt float) translate fname
    (InputTableWidget.self saved) (InputTableWidget.after saved).


(** ** Vocabulary of the further properties *)

(** Qt's bounding of a value to the range of the nine equations. *)
Definition bounded_1_9 (v : Z) : Z := Z.max 1 (Z.min 9 v).

(** The widget after a change of the spin box; a call that raises (the
    value does not fit a C [int]) leaves the widget as it was. *)
Definition spin_after {V T : Type} (w : @InputTableWidget.widget V T)
    (value : Z) : @InputTableWidget.widget V T :=
  match InputTableWidget.spin_setValue value w with
  | Ok w' => w'
  | Raise _ => w
  end.

Definition after_spin_calls {V T : Type} (w : @InputTableWidget.widget V T)
    (calls : list Z) : @InputTableWidget.widget V T :=
  foldl spin_after w calls.

(** The widget that [InputTableWidget(2, horizontalHeader=["T", "P"],
    DIPPR=True)] constructs, with the default [eq=1]. *)
Definition widget_eq1 : @InputTableWidget.widget Z Example.grid :=
  InputTableWidget.mk 2%nat ""
    (Example.mkGrid 2 ["T"; "P"] [])
    (Some (InputTableWidget.mkDippr (eqDIPPR.mk (QSpinBox.mk 1 9 1))
             [slot_showTc] (mkLabel "Tc: " false) (mkEntrada None false))).

(** [widget_eq7] after its spin box was set to 9: Tc is shown. *)
Definition widget_eq9 : @InputTableWidget.widget Z Example.grid :=
  InputTableWidget.mk 2%nat ""
    (Example.mkGrid 2 ["T"; "P"] [])
    (Some (InputTableWidget.mkDippr (eqDIPPR.mk (QSpinBox.mk 1 9 9))
             [slot_showTc] (mkLabel "Tc: " true) (mkEntrada None true))).

(** Tables that [save] does not write in full: a third column without
    header item, rows of three values in a table of two columns, and a row
    of one value in a table of two columns. *)
Definition widget_no_third_header : @InputTableWidget.widget Z Example.grid :=
  InputTableWidget.mk 3%nat "t"
    (Example.mkGrid 3 ["T"; "P"] [[3; 4; 5]]) None.

Definition widget_long_rows : @InputTableWidget.widget Z Example.grid :=
  InputTableWidget.mk 2%nat "t"
    (Example.mkGrid 2 ["T"; "P"] [[3; 4; 9]; [5; 6; 9]]) None.

Definition widget_short_row : @InputTableWidget.widget Z Example.grid :=
  InputTableWidget.mk 2%nat "t"
    (Example.mkGrid 2 ["T"; "P"] [[3; 4]; [5]]) None.

(** [save(self)] where [open(fname, 'w')] can fail: [can_write] tells the
    paths that can be opened for writing; on any other path, [open] raises
    [OSError] (a missing directory, a directory, no permission) before the
    file is touched, and the exception leaves [save]. *)
Definition save_opening {V T : Type} `{!Tabla V T}
    (can_write : string → bool) (str : V → string) (fname : string)
    (w : @InputTableWidget.widget V T) (σ : world)
    : @InputTableWidget.outcome V T :=
  if bool_decide (fname = "") then InputTableWidget.mkOutcome w σ None
  else if can_write fname then InputTableWidget.save str fname w σ
  else InputTableWidget.mkOutcome w σ (Some (OSError fname)).


(** A table of one row. *)
Definition widget_one_row : @InputTableWidget.widget Z Example.grid :=
  InputTableWidget.mk 2%nat "t" (Example.mkGrid 2 ["T"; "P"] [[3; 4]]) None.

(** ** The demonstration at the end of the file *)

Module Main.
Section with_tabla.

Context {V T : Type} `{!Tabla V T}.

Variable translate : string → string → string.

Definition titulo : string := "Distribución de tamaño de sólidos".

Definition encabezado : list string :=
  ["Diametro, μm"; "Fracción másica"; "acumulado"].

(** The [if __name__ == "__main__"] block up to [ui.show()]: the argument
    [helpFile] is evaluated, reading the environment variable, before the
    constructor runs.  The event loop is not part of the model. *)
Definition main (σ : world) : result (@InputTableDialog.dialog V T) :=
  dir ← os_environ "pychemqt" σ;
  InputTableDialog.__init__ translate 2%nat true
    (dir +:+ "/docs/_build/lib.reaction.html")
    {| InputTableDialog.kw_data := None;
       InputTableDialog.kw_t := None;
       InputTableDialog.kw_property := None;
       InputTableDialog.kw_horizontalHeader := Some encabezado;
       InputTableDialog.kw_title := Some titulo;
       InputTableDialog.kw_DIPPR := Some true;
       InputTableDialog.kw_hasTc := None;
       InputTableDialog.kw_Tc := None;
       InputTableDialog.kw_eq := None |} σ.

End with_tabla.
End Main.

(** * Properties *)

(** ** The equation selector *)

Lemma to_cint_Ok (v : Z) :
  -2147483648 ≤ v ≤ 2147483647 → to_cint v = Ok v.
Proof.
  intros Hv. unfold to_cint. rewrite bool_decide_eq_true_2; [done | lia].
Qed.

Lemma to_cint_inv (v c : Z) : to_cint v = Ok c → c = v.
Proof. unfold to_cint. case_bool_decide; congruence. Qed.

(** [setValue] keeps the range and leaves a value inside it. *)
Lemma setValue_c_bounded (v : Z) (sb : QSpinBox.t) :
  QSpinBox.minimum sb ≤ QSpinBox.maximum sb →
  let sb' := (QSpinBox.setValue_c v sb).1 in
  QSpinBox.minimum sb' = QSpinBox.minimum sb ∧
  QSpinBox.maximum sb' = QSpinBox.maximum sb ∧
  QSpinBox.minimum sb ≤ QSpinBox.value sb' ≤ QSpinBox.maximum sb.
Proof.
  intros Hle. unfold QSpinBox.setValue_c, QSpinBox.bound.
  case_bool_decide as Heq; simpl; [rewrite <- Heq |]; lia.
Qed.

Lemma setValue_c_selects (v : Z) (sb : QSpinBox.t) :
  selects_equation sb → selects_equation (QSpinBox.setValue_c v sb).1.
Proof.
  intros (Hmin & Hmax & Hv).
  destruct (setValue_c_bounded v sb) as (Hmin' & Hmax' & Hv'); [lia |].
  unfold selects_equation. lia.
Qed.

Lemma setRange_c_1_9_selects (sb : QSpinBox.t) :
  selects_equation (QSpinBox.setRange_c 1 9 sb).1.
Proof.
  unfold QSpinBox.setRange_c.
  destruct (setValue_c_bounded (QSpinBox.value sb)
    {| QSpinBox.minimum := 1; QSpinBox.maximum := Z.max 1 9;
       QSpinBox.value := QSpinBox.value sb |}) as (Hmin & Hmax & Hv);
    simpl in *; [lia |].
  unfold selects_equation. lia.
Qed.

Lemma eqDIPPR_init_selects (value : Z) (w : eqDIPPR.t) :
  eqDIPPR.__init__ value = Ok w → selects_equation (eqDIPPR.eqDIPPR w).
Proof.
  unfold eqDIPPR.__init__, QSpinBox.setValue, QSpinBox.setRange.
  destruct (to_cint value) as [c |]; simpl; [| discriminate].
  intros [= <-]. simpl. apply setRange_c_1_9_selects.
Qed.

(** The constructor returns for every value that fits a C [int]. *)
Lemma eqDIPPR_init_total (value : Z) :
  -2147483648 ≤ value ≤ 2147483647 → is_Ok (eqDIPPR.__init__ value).
Proof.
  intros Hv. unfold eqDIPPR.__init__, QSpinBox.setValue, QSpinBox.setRange.
  rewrite (to_cint_Ok value Hv). simpl. by eexists.
Qed.

Lemma after_setValue_selects (v : Z) (w : eqDIPPR.t) :
  selects_equation (eqDIPPR.eqDIPPR w) →
  selects_equation (eqDIPPR.eqDIPPR (eqDIPPR.after_setValue v w)).
Proof.
  intros Hw. unfold eqDIPPR.after_setValue, eqDIPPR.setValue, QSpinBox.setValue.
  destruct (to_cint v) as [c |]; simpl; [| done].
  by apply setValue_c_selects.
Qed.

Lemma after_calls_selects (calls : list Z) (w : eqDIPPR.t) :
  selects_equation (eqDIPPR.eqDIPPR w) →
  selects_equation (eqDIPPR.eqDIPPR (after_calls w calls)).
Proof.
  revert w. induction calls as [| v calls IH]; intros w Hw; [done |].
  apply IH. by apply after_setValue_selects.
Qed.

(** C6: whatever value [eqDIPPR] is constructed with and whatever integers
    [setValue] is called with afterwards, the value of the spin box lies
    between 1 and 9. *)
Theorem eqDIPPR_value_between_1_and_9 (value : Z) (w : eqDIPPR.t)
    (calls : list Z) :
  eqDIPPR.__init__ value = Ok w →
  1 ≤ QSpinBox.value (eqDIPPR.eqDIPPR (after_calls w calls)) ≤ 9.
Proof.
  intros Hinit.
  destruct (after_calls_selects calls w) as (_ & _ & Hv); [| done].
  by eapply eqDIPPR_init_selects.
Qed.

Lemma eqDIPPR_value_between_1_and_9_witness :
  eqDIPPR.__init__ 42 = Ok (eqDIPPR.mk (QSpinBox.mk 1 9 9)) ∧
  1 ≤ QSpinBox.value (eqDIPPR.eqDIPPR
        (after_calls (eqDIPPR.mk (QSpinBox.mk 1 9 9)) [0; 100; 5; 2 ^ 40])) ≤ 9.
Proof.
  split; [reflexivity |].
  apply (eqDIPPR_value_between_1_and_9 42). reflexivity.
Defined.

(** After [setValue v] with [v] from 1 to 9 the spin box holds [v]. *)
Lemma eqDIPPR_setValue_value (v : Z) (w : eqDIPPR.t) :
  selects_equation (eqDIPPR.eqDIPPR w) → 1 ≤ v ≤ 9 →
  ∃ r, eqDIPPR.setValue v w = Ok r ∧
       QSpinBox.value (eqDIPPR.eqDIPPR r.1) = v.
Proof.
  intros (Hmin & Hmax & Hw) Hv.
  unfold eqDIPPR.setValue, QSpinBox.setValue.
  rewrite to_cint_Ok by lia. simpl. eexists; split; [done |]. simpl.
  unfold QSpinBox.setValue_c, QSpinBox.bound.
  case_bool_decide as Heq; simpl; lia.
Qed.

(** C9: on the widget made by [eqDIPPR(1)] and set to 5 by [setValue(5)],
    the [value] property is the bound method [QSpinBox.value], not the
    integer 5; only calling what the property returns gives 5. *)
Theorem eqDIPPR_value_property_is_bound_method :
  ∃ w r, eqDIPPR.__init__ 1 = Ok w ∧ eqDIPPR.setValue 5 w = Ok r ∧
    QSpinBox.value (eqDIPPR.eqDIPPR r.1) = 5 ∧
    eqDIPPR.value r.1 = PyBoundMethod QSpinBox_value ∧
    eqDIPPR.value r.1 ≠ PyInt 5 ∧
    eqDIPPR.call r.1 (eqDIPPR.value r.1) = Some (PyInt 5).
Proof.
  eexists _, _. split; [reflexivity |]. split; [reflexivity |].
  repeat split; done.
Qed.

(** The property never is an integer, whatever the widget holds. *)
Lemma eqDIPPR_value_property_no_int (w : eqDIPPR.t) (z : Z) :
  eqDIPPR.value w ≠ PyInt z.
Proof. done. Qed.

(** ** The critical temperature field *)

Module W := InputTableWidget.

Lemma in_7_9_spec (value : Z) : in_7_9 value = true ↔ value = 7 ∨ value = 9.
Proof.
  unfold in_7_9. rewrite bool_decide_eq_true.
  rewrite !elem_of_cons, elem_of_nil. tauto.
Qed.

Section Tc_visibility.

Context {V T : Type} `{!Tabla V T}.

Implicit Types (w : @W.widget V T) (d : @W.dippr V).

(** C1: on a widget that has the DIPPR section, [showTc(value)] returns and
    leaves the Tc label and the Tc entry both visible if and only if
    [value] is 7 or 9; for the other values from 1 to 9 both are
    hidden. *)
Theorem showTc_visible_iff_7_or_9 (value : Z) w d :
  W.section w = Some d →
  ∃ w' d', W.showTc value w = Ok w' ∧ W.section w' = Some d' ∧
    (label_visible (W.labelTc d') = true ↔ value = 7 ∨ value = 9) ∧
    (entrada_visible (W.tc d') = true ↔ value = 7 ∨ value = 9) ∧
    (1 ≤ value ≤ 9 → value ≠ 7 → value ≠ 9 →
       label_visible (W.labelTc d') = false ∧
       entrada_visible (W.tc d') = false).
Proof.
  intros Hd. unfold W.showTc. rewrite Hd.
  eexists _, _. split; [done |]. split; [done |]. simpl.
  split; [apply in_7_9_spec |]. split; [apply in_7_9_spec |].
  intros _ H7 H9.
  assert (in_7_9 value = false) as ->; [| done].
  apply not_true_is_false. rewrite in_7_9_spec. tauto.
Qed.

(** [showTc] changes nothing but the two visibility flags. *)
Lemma showTc_frame (value : Z) w w' :
  W.showTc value w = Ok w' →
  W.columnas w' = W.columnas w ∧ W.title w' = W.title w ∧
  W.tabla w' = W.tabla w ∧
  ∃ d d', W.section w = Some d ∧ W.section w' = Some d' ∧
    W.eqDIPPR d' = W.eqDIPPR d ∧ W.valueChanged d' = W.valueChanged d ∧
    label_visible (W.labelTc d') = in_7_9 value ∧
    entrada_visible (W.tc d') = in_7_9 value.
Proof.
  unfold W.showTc. destruct (W.section w) as [d |] eqn:Hd; [| done].
  intros [= <-]. simpl. repeat split. by eexists _, _.
Qed.

(** The constructor ends with [showTc(1)]: whatever [eq] is, a widget made
    with [DIPPR=True] starts with Tc hidden. *)
Lemma init_hides_Tc (columnas : nat) (data : option (list (list V)))
    (t property : list V) (horizontalHeader : list string) (title : string)
    (hasTc : Z) (Tc : option V) (eq : Z) (σ : world) w :
  W.__init__ columnas data t property horizontalHeader title true hasTc Tc
    eq σ = Ok w →
  ∃ d e, W.section w = Some d ∧ eqDIPPR.__init__ eq = Ok e ∧
    W.eqDIPPR d = e ∧ W.valueChanged d = [slot_showTc] ∧
    label_visible (W.labelTc d) = false ∧
    entrada_visible (W.tc d) = false.
Proof.
  unfold W.__init__.
  destruct (os_environ "pychemqt" σ) as [dir |]; simpl; [| done].
  destruct (eqDIPPR.__init__ eq) as [e |]; simpl; [| done].
  intros [= <-]. simpl. by eexists _, _.
Qed.

(** X5: a change of the spin box to another equation shows or hides Tc to
    match the new equation. *)
Lemma spin_setValue_follows (v : Z) w w' d :
  W.section w = Some d → W.valueChanged d = [slot_showTc] →
  selects_equation (eqDIPPR.eqDIPPR (W.eqDIPPR d)) →
  1 ≤ v ≤ 9 → v ≠ QSpinBox.value (eqDIPPR.eqDIPPR (W.eqDIPPR d)) →
  W.spin_setValue v w = Ok w' →
  Tc_follows_equation w' ∧
  ∃ d', W.section w' = Some d' ∧
    QSpinBox.value (eqDIPPR.eqDIPPR (W.eqDIPPR d')) = v.
Proof.
  intros Hd Hslot (Hmin & Hmax & Hcur) Hv Hne.
  unfold W.spin_setValue. rewrite Hd.
  unfold eqDIPPR.setValue, QSpinBox.setValue.
  rewrite to_cint_Ok by lia. simpl.
  unfold QSpinBox.setValue_c, QSpinBox.bound.
  rewrite Hmin, Hmax.
  replace (Z.max 1 (Z.min 9 v)) with v by lia.
  rewrite bool_decide_eq_false_2 by done. simpl.
  rewrite Hslot. simpl. intros [= <-]. simpl.
  split; [| by eexists]. eexists. simpl. by split.
Qed.

(** Once the field follows the equation, every later [setValue] of the
    spin box keeps it so. *)
Lemma spin_setValue_preserves (v : Z) w w' d :
  W.section w = Some d → W.valueChanged d = [slot_showTc] →
  Tc_follows_equation w →
  W.spin_setValue v w = Ok w' →
  Tc_follows_equation w' ∧
  ∃ d', W.section w' = Some d' ∧ W.valueChanged d' = [slot_showTc].
Proof.
  intros Hd Hslot (d0 & Hd0 & Hl & Ht). rewrite Hd in Hd0.
  injection Hd0 as <-.
  unfold W.spin_setValue. rewrite Hd.
  unfold eqDIPPR.setValue, QSpinBox.setValue.
  destruct (to_cint v) as [c |]; simpl; [| done].
  unfold QSpinBox.setValue_c.
  case_bool_decide as Heq; simpl.
  - intros [= <-]. simpl. split; [| by eexists].
    eexists. simpl. split; [done |]. destruct d as [[sb] ? ? ?]. simpl in *.
    by destruct sb.
  - rewrite Hslot. simpl. intros [= <-]. simpl. split; [| by eexists].
    eexists. simpl. by split.
Qed.

End Tc_visibility.

Lemma showTc_visible_iff_7_or_9_witness :
  ∃ w' d', W.showTc 7 widget_eq7 = Ok w' ∧ W.section w' = Some d' ∧
    (label_visible (W.labelTc d') = true ↔ 7 = 7 ∨ 7 = 9) ∧
    (entrada_visible (W.tc d') = true ↔ 7 = 7 ∨ 7 = 9) ∧
    (1 ≤ 7 ≤ 9 → 7 ≠ 7 → 7 ≠ 9 →
       label_visible (W.labelTc d') = false ∧
       entrada_visible (W.tc d') = false).
Proof.
  eapply (showTc_visible_iff_7_or_9 7 widget_eq7). reflexivity.
Defined.

(** C2: [InputTableWidget(2, horizontalHeader=["T", "P"], DIPPR=True, eq=7)]
    returns a widget whose spin box holds 7 and whose Tc label and Tc entry
    are hidden: just after construction the field does not follow the
    equation. *)
Theorem init_eq7_hides_Tc :
  W.__init__ 2%nat None [] [] ["T"; "P"] "" true 0 None 7 Example.σ0
    = Ok widget_eq7 ∧
  (∃ d, W.section widget_eq7 = Some d ∧
     QSpinBox.value (eqDIPPR.eqDIPPR (W.eqDIPPR d)) = 7 ∧
     label_visible (W.labelTc d) = false ∧
     entrada_visible (W.tc d) = false) ∧
  ¬ Tc_follows_equation widget_eq7.
Proof.
  split; [reflexivity |]. split; [by eexists |].
  intros (d & Hd & Hl & _). injection Hd as <-. discriminate Hl.
Qed.

(** ** Loading a file *)

Section open_properties.

Context {V T : Type} `{!Tabla V T}.

Variable loadtxt : string → result (ndarray V).
Variable translate : string → string → string.

Implicit Types (w : @W.widget V T) (σ : world).

Local Abbreviation open := (W.open loadtxt translate).

(** Without a file name [open] does nothing. *)
Lemma open_cancelled w σ : open "" w σ = W.mkOutcome w σ None.
Proof. done. Qed.

(** C5: for a selected file that the loader rejects with a [ValueError]
    carrying an error text, [open] shows one critical message, made of the
    file name, a line feed and that text, and raises nothing; for a file
    that the loader parses, the table is cleared as by [delete] and then set
    to the parsed data. *)
Theorem open_reports_or_replaces (fname file : string) w σ :
  fname ≠ "" → fs σ !! fname = Some file →
  match loadtxt file with
  | Raise (ValueError (er :: _)) =>
      open fname w σ =
        W.mkOutcome w
          (QMessageBox_critical (translate "pychemqt" "Failed to load file")
             ((fname +:+ LF) +:+ er) σ) None
  | Ok data =>
      open fname w σ =
        W.mkOutcome
          (W.set_tabla
             (setData data
                (addRow (clearContents (setRowCount 0%nat (W.tabla w)))))
             w) σ None
  | Raise _ => True
  end.
Proof.
  intros Hname Hfile. unfold W.open.
  rewrite bool_decide_eq_false_2 by done. rewrite Hfile.
  destruct (loadtxt file) as [data | e]; [done |].
  destruct e as [| | | | | args]; try done.
  by destruct args.
Qed.

(** C8: when the user cancels the file dialog, and when the loader raises
    a [ValueError] on the selected file, [open] leaves the widget, and so
    the contents of its table, as they were. *)
Theorem open_failure_keeps_table (fname : string) w σ :
  (fname = "" ∨
   ∃ file args, fs σ !! fname = Some file ∧
                loadtxt file = Raise (ValueError args)) →
  W.self (open fname w σ) = w ∧
  W.data (W.self (open fname w σ)) = W.data w.
Proof.
  intros Hfail.
  assert (W.self (open fname w σ) = w) as Hself; [| by rewrite Hself].
  destruct Hfail as [-> | (file & args & Hfile & Hload)]; [done |].
  unfold W.open. case_bool_decide; [done |].
  rewrite Hfile, Hload. by destruct args.
Qed.

(** The table is cleared only on the path of a successful parse: [open]
    changes the table only if the loader returned an array. *)
Lemma open_changes_only_after_parse (fname : string) w σ :
  W.self (open fname w σ) ≠ w →
  ∃ file data, fs σ !! fname = Some file ∧ loadtxt file = Ok data.
Proof.
  unfold W.open. case_bool_decide; [done |].
  destruct (fs σ !! fname) as [file |] eqn:Hfile; [| done].
  destruct (loadtxt file) as [data | e] eqn:Hload; [by eexists _, _ |].
  destruct e as [| | | | | args]; try done.
  by destruct args.
Qed.

(** Exceptions other than [ValueError] leave [open]. *)
Lemma open_missing_file (fname : string) w σ :
  fname ≠ "" → fs σ !! fname = None →
  open fname w σ = W.mkOutcome w σ (Some (OSError fname)).
Proof.
  intros Hname Hfile. unfold W.open.
  rewrite bool_decide_eq_false_2 by done. by rewrite Hfile.
Qed.

End open_properties.

Lemma open_reports_or_replaces_witness :
  W.open Example.loadtxt Example.translate "bad.txt" widget_table world_files
    = W.mkOutcome widget_table
        (QMessageBox_critical "Failed to load file"
           (("bad.txt" +:+ LF) +:+ "could not convert string to float: x")
           world_files) None ∧
  W.open Example.loadtxt Example.translate "good.txt" widget_table world_files
    = W.mkOutcome
        (W.mk 2%nat "t" (Example.mkGrid 2 ["T"; "P"] [[7; 8]; [9; 10]]) None)
        world_files None.
Proof.
  split.
  - exact (open_reports_or_replaces Example.loadtxt Example.translate
             "bad.txt" "1 x" widget_table world_files
             ltac:(done) ltac:(reflexivity)).
  - exact (open_reports_or_replaces Example.loadtxt Example.translate
             "good.txt" ("7 8" +:+ LF +:+ "9 10" +:+ LF) widget_table
             world_files ltac:(done) ltac:(reflexivity)).
Defined.

Lemma open_failure_keeps_table_witness :
  W.self (W.open Example.loadtxt Example.translate "bad.txt" widget_table
            world_files) = widget_table ∧
  W.data (W.self (W.open Example.loadtxt Example.translate "bad.txt"
                    widget_table world_files)) = W.data widget_table.
Proof.
  apply (open_failure_keeps_table Example.loadtxt Example.translate
           "bad.txt" widget_table world_files).
  right. exists "1 x", ["could not convert string to float: x"].
  split; reflexivity.
Defined.

(** ** The dialog *)

Module D := InputTableDialog.
Module B := QDialogButtonBox.

Section dialog_properties.

Context {V T : Type} `{!Tabla V T}.

Variable translate : string → string → string.

Implicit Types (dlg : @D.dialog V T) (kw : @D.kwargs V) (σ : world).

(** The constructor returns when the environment variable of the program
    is set and the equation fits a C [int]. *)
Lemma dialog_init_total (columnas : nat) (help : bool) (helpFile : string)
    kw σ :
  is_Some (environ σ !! "pychemqt") →
  -2147483648 ≤ default 1 (D.kw_eq kw) ≤ 2147483647 →
  is_Ok (D.__init__ translate columnas help helpFile kw σ).
Proof.
  intros [dir Hdir] Heq.
  unfold D.__init__, D.make_widget, W.__init__, os_environ.
  rewrite Hdir. simpl.
  destruct (default false (D.kw_DIPPR kw)); simpl; [| by eexists].
  destruct (eqDIPPR_init_total _ Heq) as [e ->]. simpl. by eexists.
Qed.

(** C7: in every dialog that the constructor returns, the button box has
    an OK button whose signal is connected to [accept] and a Cancel button
    whose signal is connected to [reject], pressing them accepts and rejects
    the dialog; it has a Help button if and only if [help] is true, and
    pressing that button opens the URL of [helpFile]. *)
Theorem dialog_buttons (columnas : nat) (help : bool) (helpFile : string)
    kw σ dlg :
  D.__init__ translate columnas help helpFile kw σ = Ok dlg →
  (B.has B.Ok (D.buttonBox dlg) = true ∧
   (B.accepted, D.accept) ∈ B.connections (D.buttonBox dlg) ∧
   ∀ σ', D.result_code (D.base (D.press B.Ok dlg σ').1) = Some 1 ∧
         (D.press B.Ok dlg σ').2 = σ') ∧
  (B.has B.Cancel (D.buttonBox dlg) = true ∧
   (B.rejected, D.reject) ∈ B.connections (D.buttonBox dlg) ∧
   ∀ σ', D.result_code (D.base (D.press B.Cancel dlg σ').1) = Some 0 ∧
         (D.press B.Cancel dlg σ').2 = σ') ∧
  (B.has B.Help (D.buttonBox dlg) = true ↔ help = true) ∧
  (help = true →
   (B.helpRequested, D.ayuda) ∈ B.connections (D.buttonBox dlg) ∧
   ∀ σ', D.press B.Help dlg σ'
         = (dlg, QDesktopServices_openUrl helpFile σ')) ∧
  (help = false → ∀ σ', D.press B.Help dlg σ' = (dlg, σ')).
Proof.
  unfold D.__init__.
  destruct (D.make_widget columnas kw σ) as [widget |]; simpl; [| done].
  intros [= <-].
  destruct help; simpl;
    (split; [split; [reflexivity | split; [set_solver | done]] |]);
    (split; [split; [reflexivity | split; [set_solver | done]] |]);
    (split; [done |]); split; try done.
  intros _. split; [set_solver | done].
Qed.

(** C10: in every dialog that the constructor returns, the window title
    is the translation of "Moody diagram configuration", whatever [title]
    the keyword arguments give. *)
Theorem dialog_title_is_Moody (columnas : nat) (help : bool)
    (helpFile : string) kw σ dlg :
  D.__init__ translate columnas help helpFile kw σ = Ok dlg →
  D.windowTitle (D.base dlg) = translate "pychemqt" "Moody diagram configuration".
Proof.
  unfold D.__init__.
  destruct (D.make_widget columnas kw σ) as [widget |]; simpl; [| done].
  by intros [= <-].
Qed.

End dialog_properties.

Lemma dialog_buttons_witness :
  ∃ dlg : @D.dialog Z Example.grid,
    D.__init__ Example.translate 2%nat true "reaction.html" kwargs_main
      Example.σ0 = Ok dlg ∧
    (B.has B.Help (D.buttonBox dlg) = true ↔ true = true) ∧
    (D.press B.Help dlg Example.σ0).2
      = QDesktopServices_openUrl "reaction.html" Example.σ0 ∧
    D.result_code (D.base (D.press B.Ok dlg Example.σ0).1) = Some 1 ∧
    D.result_code (D.base (D.press B.Cancel dlg Example.σ0).1) = Some 0.
Proof.
  eexists. split; [reflexivity |].
  pose proof (dialog_buttons Example.translate 2%nat true "reaction.html"
                kwargs_main Example.σ0 _ eq_refl)
    as ((_ & _ & Hok) & (_ & _ & Hcancel) & Hhelp & Hpress & _).
  split; [exact Hhelp |].
  split; [by rewrite (proj2 (Hpress eq_refl)) |].
  split; [apply Hok | apply Hcancel].
Defined.

Lemma dialog_title_is_Moody_witness :
  ∃ dlg : @D.dialog Z Example.grid,
    D.__init__ Example.translate 2%nat true "reaction.html" kwargs_main
      Example.σ0 = Ok dlg ∧
    D.kw_title kwargs_main = Some "Solids size distribution" ∧
    D.windowTitle (D.base dlg) = "Moody diagram configuration".
Proof.
  eexists. split; [reflexivity |]. split; [reflexivity |].
  exact (dialog_title_is_Moody Example.translate 2%nat true "reaction.html"
           kwargs_main Example.σ0 _ eq_refl).
Defined.

(** ** Strings *)

Lemma app_cons (c : ascii) (s t : string) :
  String c s +:+ t = String c (s +:+ t).
Proof. reflexivity. Qed.

Lemma app_nil_l (s : string) : "" +:+ s = s.
Proof. reflexivity. Qed.

Lemma app_nil_r (s : string) : s +:+ "" = s.
Proof. induction s as [| c s IH]; [done |]. by rewrite app_cons, IH. Qed.

Lemma app_assoc (s t u : string) : (s +:+ t) +:+ u = s +:+ (t +:+ u).
Proof.
  induction s as [| c s IH]; [done |]. by rewrite !app_cons, IH.
Qed.

Lemma cat_cons (s : string) (l : list string) : cat (s :: l) = s +:+ cat l.
Proof. reflexivity. Qed.

Lemma cat_app (l k : list string) : cat (l ++ k) = cat l +:+ cat k.
Proof.
  induction l as [| s l IH]; [done |].
  by rewrite <- app_comm_cons, !cat_cons, IH, app_assoc.
Qed.

(** ** Saving a file *)

Section save_properties.

Context {V T : Type} `{!Tabla V T}.

Variable str : V → string.

Implicit Types (w : @W.widget V T) (σ : world).

(** The loop over the header items writes the header texts in order. *)
Lemma write_headers_texts (tabla : T) (headers : list string) (k : nat)
    (file : string) :
  (∀ i h, headers !! i = Some h →
          horizontalHeaderItem tabla (k + i) = Some h) →
  W.write_headers tabla (seq k (length headers)) file
    = (file +:+ cat ((λ h, h +:+ TAB) <$> headers), None).
Proof.
  revert k file. induction headers as [| h headers IH]; intros k file Hitem.
  - simpl. by rewrite app_nil_r.
  - simpl. rewrite <- (Nat.add_0_r k) at 1. rewrite (Hitem 0%nat h eq_refl).
    rewrite IH.
    + by rewrite !app_assoc.
    + intros i h' Hi. replace (S k + i)%nat with (k + S i)%nat by lia.
      by apply Hitem.
Qed.

(** The loop over the columns writes the values of a row in order. *)
Lemma write_row_values (row vs : list V) (k : nat) (file : string) :
  (∀ i v, vs !! i = Some v → row !! (k + i)%nat = Some v) →
  W.write_row str row (seq k (length vs)) file
    = (file +:+ cat ((λ v, str v +:+ TAB) <$> vs), None).
Proof.
  revert k file. induction vs as [| v vs IH]; intros k file Hcell.
  - simpl. by rewrite app_nil_r.
  - simpl. rewrite <- (Nat.add_0_r k) at 1. rewrite (Hcell 0%nat v eq_refl).
    rewrite IH.
    + by rewrite !app_assoc.
    + intros i v' Hi. replace (S k + i)%nat with (k + S i)%nat by lia.
      by apply Hcell.
Qed.

(** The loop over the rows writes one line for each row. *)
Lemma write_rows_lines (data rows : list (list V)) (n k : nat)
    (file : string) :
  (∀ i row, rows !! i = Some row → data !! (k + i)%nat = Some row) →
  Forall (λ row, length row = n) rows →
  W.write_rows str data (seq k (length rows)) n file
    = (file +:+
         cat ((λ row, cat ((λ v, str v +:+ TAB) <$> row) +:+ LF) <$> rows),
       None).
Proof.
  revert k file. induction rows as [| row rows IH]; intros k file Hrow Hlen.
  - simpl. by rewrite app_nil_r.
  - apply Forall_cons in Hlen as [Hn Hlen].
    simpl. rewrite <- (Nat.add_0_r k) at 1. rewrite (Hrow 0%nat row eq_refl).
    rewrite <- Hn, (write_row_values row row 0); [| done].
    rewrite Hn, IH; [| | done].
    + by rewrite !app_assoc.
    + intros i row' Hi. replace (S k + i)%nat with (k + S i)%nat by lia.
      by apply Hrow.
Qed.

(** [save] with a file name: the outcome. *)
Lemma save_outcome (fname : string) (headers : list string) w σ :
  fname ≠ "" →
  length headers = columnCount (W.tabla w) →
  (∀ i h, headers !! i = Some h →
          horizontalHeaderItem (W.tabla w) i = Some h) →
  Forall (λ row, length row = columnCount (W.tabla w)) (W.data w) →
  W.save str fname w σ
    = W.mkOutcome w
        (write_file fname
           (header_and_data str (W.title w) headers (W.data w)) σ) None.
Proof.
  intros Hname Hlen Hitem Hrows.
  unfold W.save. rewrite bool_decide_eq_false_2 by done.
  rewrite <- Hlen, write_headers_texts by done.
  rewrite (write_rows_lines (W.data w) (W.data w) _ 0); [| done |].
  - unfold header_and_data. by rewrite !app_assoc.
  - by rewrite Hlen.
Qed.

(** C3: for a widget whose table has [n] columns with header texts
    [headers] and whose data are rows of [n] values, [save] with a file name
    raises nothing and leaves in that file exactly: ['#'] and the title and
    a line feed; ['#'], each header text followed by a tab, and a line feed;
    then for each row the string form of each value followed by a tab, and
    a line feed. *)
Theorem save_writes_header_and_data (fname : string) (headers : list string)
    w σ :
  fname ≠ "" →
  length headers = columnCount (W.tabla w) →
  (∀ i h, headers !! i = Some h →
          horizontalHeaderItem (W.tabla w) i = Some h) →
  Forall (λ row, length row = columnCount (W.tabla w)) (W.data w) →
  W.save str fname w σ
    = W.mkOutcome w
        (write_file fname
           (header_and_data str (W.title w) headers (W.data w)) σ) None ∧
  fs (W.after (W.save str fname w σ)) !! fname
    = Some (header_and_data str (W.title w) headers (W.data w)).
Proof.
  intros Hname Hlen Hitem Hrows.
  rewrite (save_outcome fname headers) by done.
  split; [done |]. simpl. apply lookup_insert_eq.
Qed.

(** Without a file name [save] does nothing. *)
Lemma save_cancelled w σ : W.save str "" w σ = W.mkOutcome w σ None.
Proof. done. Qed.

End save_properties.

Lemma save_writes_header_and_data_witness :
  W.save Example.str "out.txt" widget_table Example.σ0
    = W.mkOutcome widget_table
        (write_file "out.txt"
           (header_and_data Example.str (W.title widget_table) ["T"; "P"]
              (W.data widget_table)) Example.σ0) None ∧
  fs (W.after (W.save Example.str "out.txt" widget_table Example.σ0))
    !! "out.txt"
    = Some (header_and_data Example.str (W.title widget_table) ["T"; "P"]
              (W.data widget_table)).
Proof.
  apply (save_writes_header_and_data Example.str "out.txt" ["T"; "P"]
           widget_table Example.σ0).
  - done.
  - reflexivity.
  - intros [| [| i]] h Hh; simpl in Hh; try done; by injection Hh as <-.
  - repeat constructor.
Defined.

(** ** Reading back what was saved *)

Module L := Loadtxt.

Lemma string_forall_app (P : ascii → bool) (s t : string) :
  string_forall P (s +:+ t) = string_forall P s && string_forall P t.
Proof.
  induction s as [| c s IH]; [done |].
  rewrite app_cons. simpl. by rewrite IH, andb_assoc.
Qed.

Lemma string_forall_impl (P Q : ascii → bool) (s : string) :
  (∀ c, P c = true → Q c = true) →
  string_forall P s = true → string_forall Q s = true.
Proof.
  intros HPQ. induction s as [| c s IH]; [done |]. simpl.
  rewrite !andb_true_iff. intros [Hc Hs]. auto.
Qed.

Lemma string_forall_cat (P : ascii → bool) (l : list string) :
  Forall (λ s, string_forall P s = true) l → string_forall P (cat l) = true.
Proof.
  induction 1 as [| s l Hs _ IH]; [done |].
  by rewrite cat_cons, string_forall_app, Hs, IH.
Qed.

(** A text without line feed, then a line feed: the first line. *)
Lemma lines_first (a b : string) :
  string_forall (λ c, negb (L.is_LF c)) a = true →
  L.lines (a +:+ LF +:+ b) = a :: L.lines b.
Proof.
  induction a as [| c a IH]; [done |].
  rewrite app_cons. simpl. intros [Hc Ha]%andb_true_iff.
  apply negb_true_iff in Hc. rewrite Hc, IH; done.
Qed.

Lemma strip_comment_hash (s : string) : L.strip_comment ("#" +:+ s) = "".
Proof. done. Qed.

Lemma strip_comment_none (s : string) :
  string_forall (λ c, negb (L.is_hash c)) s = true → L.strip_comment s = s.
Proof.
  induction s as [| c s IH]; [done |]. simpl.
  intros [Hc Hs]%andb_true_iff. apply negb_true_iff in Hc.
  by rewrite Hc, IH.
Qed.

(** [split] reads a run without white space into the current token. *)
Lemma split_run (tok cur rest : string) :
  string_forall (λ c, negb (L.is_space c)) tok = true →
  L.split cur (tok +:+ rest) = L.split (cur +:+ tok) rest.
Proof.
  revert cur. induction tok as [| c tok IH]; intros cur.
  - by rewrite app_nil_r.
  - rewrite app_cons. simpl.
    intros [Hc Htok]%andb_true_iff. apply negb_true_iff in Hc.
    rewrite Hc, IH by done. by rewrite app_assoc.
Qed.

(** A token followed by a tab is the first word of the line. *)
Lemma split_token_TAB (tok rest : string) :
  tok ≠ "" →
  string_forall (λ c, negb (L.is_space c)) tok = true →
  L.split "" (tok +:+ TAB +:+ rest) = tok :: L.split "" rest.
Proof.
  intros Hne Htok. rewrite split_run by done. rewrite app_nil_l.
  simpl. by rewrite bool_decide_eq_false_2.
Qed.

Lemma clean_token_inv (s : string) :
  clean_token s = true →
  s ≠ "" ∧
  string_forall (λ c, negb (L.is_space c)) s = true ∧
  string_forall (λ c, negb (L.is_hash c)) s = true ∧
  string_forall (λ c, negb (L.is_LF c)) s = true.
Proof.
  unfold clean_token. intros [Hne Hs]%andb_true_iff.
  apply negb_true_iff, bool_decide_eq_false in Hne.
  split; [done |]. repeat split.
  - revert Hs. apply string_forall_impl. by intros c [? _]%andb_true_iff.
  - revert Hs. apply string_forall_impl. by intros c [_ ?]%andb_true_iff.
  - revert Hs. apply string_forall_impl. intros c [Hc _]%andb_true_iff.
    apply negb_true_iff in Hc. apply negb_true_iff.
    unfold L.is_LF. apply bool_decide_eq_false. intros ->. done.
Qed.

Lemma one_line_no_LF (s : string) :
  one_line s = true → string_forall (λ c, negb (L.is_LF c)) s = true.
Proof.
  apply string_forall_impl. intros c Hc%negb_true_iff%bool_decide_eq_false.
  apply negb_true_iff, bool_decide_eq_false. intros ->. apply Hc. set_solver.
Qed.

Section round_trip.

Context {V T : Type} `{!Tabla V T}.

Variable str : V → string.
Variable float : string → option V.
Variable translate : string → string → string.

Implicit Types (row : list V) (rows : list (list V)).

Local Abbreviation good := (prints_and_reads str float).
Local Abbreviation row_text :=
  (λ row : list V, cat ((λ v, str v +:+ TAB) <$> row)).

Lemma row_text_cons (v : V) row :
  row_text (v :: row) = str v +:+ TAB +:+ row_text row.
Proof. simpl. by rewrite app_assoc. Qed.

(** The words of the line of a row are the string forms of its values. *)
Lemma split_row_text row :
  Forall good row → L.split "" (row_text row) = str <$> row.
Proof.
  induction 1 as [| v row [Hv _] _ IH]; [done |].
  apply clean_token_inv in Hv as (Hne & Hsp & _).
  rewrite row_text_cons, split_token_TAB by done.
  by rewrite IH.
Qed.

Lemma floats_str row : Forall good row → L.floats float (str <$> row) = Ok row.
Proof.
  induction 1 as [| v row [_ Hv] _ IH]; [done |].
  simpl. rewrite Hv. change (list_fmap V string str row) with (str <$> row).
  by rewrite IH.
Qed.

Lemma row_text_forall (P : ascii → bool) row :
  P "009"%char = true →
  Forall (λ v, string_forall P (str v) = true) row →
  string_forall P (row_text row) = true.
Proof.
  intros HTAB Hrow. apply string_forall_cat.
  apply Forall_fmap. eapply Forall_impl; [exact Hrow |].
  intros v Hv. simpl. rewrite string_forall_app, Hv. simpl. by rewrite HTAB.
Qed.

Lemma row_text_no_LF row :
  Forall good row →
  string_forall (λ c, negb (L.is_LF c)) (row_text row) = true.
Proof.
  intros Hrow. apply row_text_forall; [done |].
  eapply Forall_impl; [exact Hrow |].
  intros v [Hv _]. by apply clean_token_inv in Hv as (_ & _ & _ & ?).
Qed.

Lemma row_text_no_hash row :
  Forall good row →
  string_forall (λ c, negb (L.is_hash c)) (row_text row) = true.
Proof.
  intros Hrow. apply row_text_forall; [done |].
  eapply Forall_impl; [exact Hrow |].
  intros v [Hv _]. by apply clean_token_inv in Hv as (_ & _ & ? & _).
Qed.

(** The lines of the data part of the file: one for each row, and the
    empty rest after the last line feed. *)
Lemma lines_rows rows :
  Forall (Forall good) rows →
  L.lines (cat ((λ row, row_text row +:+ LF) <$> rows))
    = (row_text <$> rows) ++ [""].
Proof.
  induction 1 as [| row rows Hrow _ IH]; [done |].
  rewrite fmap_cons, cat_cons, app_assoc.
  rewrite lines_first by by apply row_text_no_LF.
  by rewrite IH.
Qed.

(** The loader reads the rows back from their lines. *)
Lemma read_rows_rows rows :
  Forall (λ row, row ≠ [] ∧ Forall good row) rows →
  L.read_rows float ((row_text <$> rows) ++ [""]) = Ok rows.
Proof.
  induction 1 as [| row rows [Hne Hrow] _ IH]; [done |].
  rewrite fmap_cons, <- app_comm_cons.
  cbn [L.read_rows].
  rewrite strip_comment_none by by apply row_text_no_hash.
  rewrite split_row_text by done.
  destruct row as [| v row]; [done |].
  rewrite fmap_cons, <- fmap_cons, floats_str by done.
  simpl. by rewrite IH.
Qed.

Lemma same_columns_length rows (n : nat) :
  Forall (λ row, length row = n) rows → L.same_columns rows = true.
Proof.
  intros Hrows. destruct rows as [| first rows']; [done |].
  unfold L.same_columns. apply forallb_forall.
  intros row Hin%list_elem_of_In.
  rewrite Forall_forall in Hrows.
  assert (first ∈ first :: rows') as Hfirst by constructor.
  rewrite (Hrows row Hin), (Hrows first Hfirst).
  apply Nat.eqb_refl.
Qed.

(** A comment line without line feed is one line of the file. *)
Lemma lines_comment (a b : string) :
  string_forall (λ c, negb (L.is_LF c)) a = true →
  L.lines ("#" +:+ a +:+ LF +:+ b) = ("#" +:+ a) :: L.lines b.
Proof. intros Ha. by apply (lines_first ("#" +:+ a) b). Qed.

(** The loader skips a comment line. *)
Lemma read_rows_comment (a : string) (ls : list string) :
  L.read_rows float (("#" +:+ a) :: ls) = L.read_rows float ls.
Proof. done. Qed.

(** The loader reads from the saved file the rows that were saved. *)
Lemma loadtxt_header_and_data (title : string) (headers : list string) rows :
  one_line title = true →
  Forall (λ h, one_line h = true) headers →
  Forall (λ row, row ≠ [] ∧ Forall good row) rows →
  L.same_columns rows = true →
  L.loadtxt float (header_and_data str title headers rows)
    = Ok (L.squeeze rows).
Proof.
  intros Htitle Hheaders Hrows Hcols.
  unfold L.loadtxt, header_and_data.
  rewrite lines_comment by by apply one_line_no_LF.
  rewrite lines_comment.
  - rewrite lines_rows.
    + rewrite !read_rows_comment, read_rows_rows by done.
      simpl. by rewrite Hcols.
    + eapply Forall_impl; [exact Hrows |]. by intros row [_ ?].
  - apply string_forall_cat, Forall_fmap.
    eapply Forall_impl; [exact Hheaders |].
    intros h Hh. simpl. rewrite string_forall_app.
    by rewrite (one_line_no_LF h Hh).
Qed.

(** What [save] and then [open] of the same file do to a table of at least
    one column: the file holds the header and the rows, nothing is raised,
    and the cleared table is given, by [setData], the loader's array of the
    rows that were saved. *)
Lemma save_then_open_outcome (fname : string) (headers : list string)
    (w : @W.widget V T) (σ : world) :
  fname ≠ "" →
  length headers = columnCount (W.tabla w) →
  (∀ i h, headers !! i = Some h →
          horizontalHeaderItem (W.tabla w) i = Some h) →
  one_line (W.title w) = true →
  Forall (λ h, one_line h = true) headers →
  (1 ≤ columnCount (W.tabla w))%nat →
  Forall (λ row, length row = columnCount (W.tabla w) ∧ Forall good row)
    (W.data w) →
  save_then_open str float translate fname w σ
    = W.mkOutcome
        (W.set_tabla
           (setData (L.squeeze (W.data w))
              (addRow (clearContents (setRowCount 0%nat (W.tabla w)))))
           w)
        (write_file fname
           (header_and_data str (W.title w) headers (W.data w)) σ)
        None.
Proof.
  intros Hname Hlen Hitem Htitle Hheaders Hn Hrows.
  unfold save_then_open.
  rewrite (save_outcome str fname headers).
  - cbn [W.self W.after]. unfold W.open.
    rewrite bool_decide_eq_false_2 by done.
    cbn [fs write_file]. rewrite lookup_insert_eq.
    rewrite loadtxt_header_and_data; [done | done | done | |].
    + eapply Forall_impl; [exact Hrows |].
      intros row [Hrow ?]. split; [| done].
      intros ->. simpl in Hrow. lia.
    + apply (same_columns_length _ (columnCount (W.tabla w))).
      eapply Forall_impl; [exact Hrows |]. by intros row [? _].
  - done.
  - done.
  - done.
  - eapply Forall_impl; [exact Hrows |]. by intros row [? _].
Qed.


(** A table of one row is read back as an array of dimension 1, the row
    itself, not as a matrix of one row: what the table makes of it is for
    [Tabla.setData] to say. *)
Lemma save_then_open_one_row (fname : string) (headers : list string)
    (w : @W.widget V T) (σ : world) (a b : V) row :
  fname ≠ "" →
  length headers = columnCount (W.tabla w) →
  (∀ i h, headers !! i = Some h →
          horizontalHeaderItem (W.tabla w) i = Some h) →
  one_line (W.title w) = true →
  Forall (λ h, one_line h = true) headers →
  W.data w = [a :: b :: row] →
  length (a :: b :: row) = columnCount (W.tabla w) →
  Forall good (a :: b :: row) →
  W.tabla (W.self (save_then_open str float translate fname w σ))
    = setData (Arr1 (a :: b :: row))
        (addRow (clearContents (setRowCount 0%nat (W.tabla w)))).
Proof.
  intros Hname Hlen Hitem Htitle Hheaders Hdata Hrow Hgood.
  rewrite (save_then_open_outcome fname headers); try done.
  - by rewrite Hdata.
  - rewrite <- Hrow. simpl. lia.
  - rewrite Hdata. apply Forall_cons. split; [done | constructor].
Qed.


End round_trip.



(** A table of one row, in the example grid: the file is read back as an
    array of dimension 1, which has no rows for the grid to show, and the
    table is left empty. *)
Lemma save_then_open_one_row_differs :
  Forall (Forall (prints_and_reads Example.str Example.float))
    (W.data widget_one_row) ∧
  W.raised (save_then_open Example.str Example.float Example.translate
              "out.txt" widget_one_row Example.σ0) = None ∧
  W.data (W.self (save_then_open Example.str Example.float Example.translate
                    "out.txt" widget_one_row Example.σ0)) = [] ∧
  W.data widget_one_row = [[3; 4]].
Proof.
  split; [by repeat constructor |]. split; [reflexivity |].
  split; reflexivity.
Qed.

(** * Further properties *)

(** ** The spin box of the equation selector *)

Lemma eqDIPPR_init_inv (value : Z) (w : eqDIPPR.t) :
  eqDIPPR.__init__ value = Ok w →
  QSpinBox.value (eqDIPPR.eqDIPPR w) = bounded_1_9 value.
Proof.
  unfold eqDIPPR.__init__, QSpinBox.setValue, QSpinBox.setRange.
  destruct (to_cint value) as [c |] eqn:Hc; simpl; [| discriminate].
  apply to_cint_inv in Hc as ->. intros [= <-]. simpl.
  unfold QSpinBox.setRange_c, QSpinBox.setValue_c, QSpinBox.bound,
    QSpinBox.new, bounded_1_9.
  simpl. repeat (case_bool_decide; simpl in *); lia.
Qed.

(** X1: [eqDIPPR(value)], for a value that fits a C [int], returns a widget
    whose spin box ranges over 1..9 and holds [value] bounded to that range:
    1 for a value below 1, 9 for a value above 9. *)
Theorem eqDIPPR_init_bounds_value (value : Z) :
  -2147483648 ≤ value ≤ 2147483647 →
  ∃ w, eqDIPPR.__init__ value = Ok w ∧
       QSpinBox.minimum (eqDIPPR.eqDIPPR w) = 1 ∧
       QSpinBox.maximum (eqDIPPR.eqDIPPR w) = 9 ∧
       QSpinBox.value (eqDIPPR.eqDIPPR w) = bounded_1_9 value ∧
       (value < 1 → QSpinBox.value (eqDIPPR.eqDIPPR w) = 1) ∧
       (9 < value → QSpinBox.value (eqDIPPR.eqDIPPR w) = 9) ∧
       (1 ≤ value ≤ 9 → QSpinBox.value (eqDIPPR.eqDIPPR w) = value).
Proof.
  intros Hv. destruct (eqDIPPR_init_total value Hv) as [w Hw].
  exists w. split; [done |].
  destruct (eqDIPPR_init_selects value w Hw) as (Hmin & Hmax & _).
  rewrite (eqDIPPR_init_inv value w Hw). unfold bounded_1_9.
  repeat split; try done; lia.
Qed.

Lemma eqDIPPR_init_bounds_value_witness :
  ∃ w, eqDIPPR.__init__ 100 = Ok w ∧
       QSpinBox.minimum (eqDIPPR.eqDIPPR w) = 1 ∧
       QSpinBox.maximum (eqDIPPR.eqDIPPR w) = 9 ∧
       QSpinBox.value (eqDIPPR.eqDIPPR w) = bounded_1_9 100 ∧
       (100 < 1 → QSpinBox.value (eqDIPPR.eqDIPPR w) = 1) ∧
       (9 < 100 → QSpinBox.value (eqDIPPR.eqDIPPR w) = 9) ∧
       (1 ≤ 100 ≤ 9 → QSpinBox.value (eqDIPPR.eqDIPPR w) = 100).
Proof. apply (eqDIPPR_init_bounds_value 100). lia. Defined.

(** X2: on a constructed selector, after any earlier calls, [setValue(v)] with
    a C [int] returns, leaves [v] bounded to 1..9 in the spin box, and emits
    [valueChanged] exactly when that differs from the value held before,
    with the new value as its argument. *)
Theorem eqDIPPR_setValue_bounds_and_emits (value0 v : Z) (w0 : eqDIPPR.t)
    (calls : list Z) :
  eqDIPPR.__init__ value0 = Ok w0 →
  -2147483648 ≤ v ≤ 2147483647 →
  let w := after_calls w0 calls in
  ∃ w', eqDIPPR.setValue v w
          = Ok (w', if bool_decide (bounded_1_9 v
                                      = QSpinBox.value (eqDIPPR.eqDIPPR w))
                    then [] else [bounded_1_9 v]) ∧
        QSpinBox.value (eqDIPPR.eqDIPPR w') = bounded_1_9 v ∧
        selects_equation (eqDIPPR.eqDIPPR w').
Proof.
  intros Hinit Hv w.
  assert (selects_equation (eqDIPPR.eqDIPPR w)) as (Hmin & Hmax & Hw).
  { apply after_calls_selects. by eapply eqDIPPR_init_selects. }
  unfold eqDIPPR.setValue, QSpinBox.setValue.
  rewrite to_cint_Ok by done. simpl.
  unfold QSpinBox.setValue_c, QSpinBox.bound. rewrite Hmin, Hmax.
  fold (bounded_1_9 v).
  case_bool_decide as Heq; simpl; eexists; (split; [done |]); simpl.
  - split; [done |]. unfold selects_equation. lia.
  - split; [done |]. unfold selects_equation, bounded_1_9. simpl. lia.
Qed.

Lemma eqDIPPR_setValue_bounds_and_emits_witness :
  ∃ w', eqDIPPR.setValue 12 (after_calls (eqDIPPR.mk (QSpinBox.mk 1 9 1)) [3])
          = Ok (w', if bool_decide
                         (bounded_1_9 12
                            = QSpinBox.value
                                (eqDIPPR.eqDIPPR
                                   (after_calls
                                      (eqDIPPR.mk (QSpinBox.mk 1 9 1)) [3])))
                    then [] else [bounded_1_9 12]) ∧
        QSpinBox.value (eqDIPPR.eqDIPPR w') = bounded_1_9 12 ∧
        selects_equation (eqDIPPR.eqDIPPR w').
Proof.
  apply (eqDIPPR_setValue_bounds_and_emits 1 12 _ [3]);
    [reflexivity | lia].
Defined.

Lemma setValue_c_twice (c : Z) (sb : QSpinBox.t) :
  QSpinBox.setValue_c c (QSpinBox.setValue_c c sb).1
    = ((QSpinBox.setValue_c c sb).1, []).
Proof.
  destruct (bool_decide (QSpinBox.bound sb c = QSpinBox.value sb)) eqn:Heq.
  - unfold QSpinBox.setValue_c. rewrite Heq. simpl. by rewrite Heq.
  - unfold QSpinBox.setValue_c. rewrite Heq. simpl.
    unfold QSpinBox.bound. simpl. by rewrite bool_decide_eq_true_2.
Qed.

(** X3: repeating a [setValue] changes nothing and emits no signal: what the
    first call leaves is a fixed point of the second. *)
Theorem eqDIPPR_setValue_twice (v : Z) (w : eqDIPPR.t)
    (r : eqDIPPR.t * list Z) :
  eqDIPPR.setValue v w = Ok r → eqDIPPR.setValue v r.1 = Ok (r.1, []).
Proof.
  unfold eqDIPPR.setValue, QSpinBox.setValue.
  destruct (to_cint v) as [c |]; simpl; [| discriminate].
  intros [= <-]. simpl. by rewrite setValue_c_twice.
Qed.

Lemma eqDIPPR_setValue_twice_witness :
  eqDIPPR.setValue 7 (eqDIPPR.mk (QSpinBox.mk 1 9 7), [7]).1
    = Ok ((eqDIPPR.mk (QSpinBox.mk 1 9 7), [7]).1, []).
Proof.
  apply (eqDIPPR_setValue_twice 7 (eqDIPPR.mk (QSpinBox.mk 1 9 1))).
  reflexivity.
Defined.

(** ** The critical temperature field over the life of the widget *)

Section Tc_over_time.

Context {V T : Type} `{!Tabla V T}.

Implicit Types (w : @W.widget V T) (d : @W.dippr V).

(** What every change of the spin box keeps: the slot stays connected and
    the field follows the equation. *)
Lemma spin_after_keeps (v : Z) w :
  (∃ d, W.section w = Some d ∧ W.valueChanged d = [slot_showTc]) →
  Tc_follows_equation w →
  (∃ d, W.section (spin_after w v) = Some d ∧
        W.valueChanged d = [slot_showTc]) ∧
  Tc_follows_equation (spin_after w v).
Proof.
  intros (d & Hd & Hslot) Hfollows. unfold spin_after.
  destruct (W.spin_setValue v w) as [w' |] eqn:Hset; [| by eauto].
  destruct (spin_setValue_preserves v w w' d Hd Hslot Hfollows Hset)
    as [Hfollows' Hd'].
  done.
Qed.

(** X4: a widget constructed with [DIPPR=True] and an equation other than 7
    and below 9 shows the Tc label and entry exactly when the spin box
    holds 7 or 9, from its construction on and after every sequence of
    changes of the spin box. *)
Theorem Tc_follows_equation_always (columnas : nat)
    (data : option (list (list V))) (t property : list V)
    (horizontalHeader : list string) (title : string) (hasTc : Z)
    (Tc : option V) (eq : Z) (σ : world) w (calls : list Z) :
  W.__init__ columnas data t property horizontalHeader title true hasTc Tc
    eq σ = Ok w →
  eq ≠ 7 → eq < 9 →
  Tc_follows_equation (after_spin_calls w calls).
Proof.
  intros Hinit H7 H9.
  destruct (init_hides_Tc _ _ _ _ _ _ _ _ _ _ _ Hinit)
    as (d & e & Hd & He & Hed & Hslot & Hl & Ht).
  assert (Tc_follows_equation w) as Hfollows.
  { exists d. split; [done |]. rewrite Hl, Ht, Hed.
    rewrite (eqDIPPR_init_inv eq e He).
    assert (in_7_9 (bounded_1_9 eq) = false) as ->; [| done].
    apply not_true_is_false. rewrite in_7_9_spec. unfold bounded_1_9. lia. }
  assert (∃ d, W.section w = Some d ∧ W.valueChanged d = [slot_showTc])
    as Hconn by eauto.
  clear Hinit Hd Hl Ht Hslot.
  unfold after_spin_calls. revert w Hfollows Hconn.
  induction calls as [| v calls IH]; intros w Hfollows Hconn; [done |].
  simpl. destruct (spin_after_keeps v w Hconn Hfollows). by apply IH.
Qed.

(** X6: [showTc] on a widget constructed without the DIPPR widgets raises
    [AttributeError], as does a change of its absent spin box. *)
Theorem showTc_without_DIPPR (columnas : nat)
    (data : option (list (list V))) (t property : list V)
    (horizontalHeader : list string) (title : string) (hasTc : Z)
    (Tc : option V) (eq : Z) (σ : world) w (value : Z) :
  W.__init__ columnas data t property horizontalHeader title false hasTc Tc
    eq σ = Ok w →
  W.section w = None ∧
  W.showTc value w = Raise (AttributeError "labelTc") ∧
  W.spin_setValue value w = Raise (AttributeError "eqDIPPR").
Proof.
  unfold W.__init__.
  destruct (os_environ "pychemqt" σ) as [dir |]; simpl; [| done].
  by intros [= <-].
Qed.

(** X7: the constructor returns exactly when the environment variable
    [pychemqt] is set and, with [DIPPR=True], the equation fits a C [int];
    without the variable it raises [KeyError], whatever the other
    arguments. *)
Theorem widget_init_returns_iff (columnas : nat)
    (data : option (list (list V))) (t property : list V)
    (horizontalHeader : list string) (title : string) (DIPPR : bool)
    (hasTc : Z) (Tc : option V) (eq : Z) (σ : world) :
  (is_Ok (W.__init__ columnas data t property horizontalHeader title DIPPR
            hasTc Tc eq σ) ↔
   is_Some (environ σ !! "pychemqt") ∧
   (DIPPR = true → -2147483648 ≤ eq ≤ 2147483647)) ∧
  (environ σ !! "pychemqt" = None →
   W.__init__ columnas data t property horizontalHeader title DIPPR hasTc
     Tc eq σ = Raise (KeyError "pychemqt")).
Proof.
  unfold W.__init__, os_environ.
  destruct (environ σ !! "pychemqt") as [dir |]; simpl.
  - split; [| done]. destruct DIPPR.
    + destruct (decide (-2147483648 ≤ eq ≤ 2147483647)) as [Hin | Hout].
      * destruct (eqDIPPR_init_total eq Hin) as [e ->]. simpl.
        split; [intros _; split; [by eexists | done] |].
        intros _. by eexists.
      * assert (eqDIPPR.__init__ eq = Raise OverflowError) as ->.
        { unfold eqDIPPR.__init__, QSpinBox.setValue, to_cint.
          rewrite bool_decide_eq_false_2 by lia. done. }
        simpl. split; [intros [? ?]; done |].
        intros [_ Hin]. by specialize (Hin eq_refl).
    + split; [intros _; split; [by eexists | done] | intros _; by eexists].
  - split; [| done]. split; [intros [? ?]; done |].
    intros [[? ?] _]. done.
Qed.

End Tc_over_time.

Lemma Tc_follows_equation_always_witness :
  Tc_follows_equation (after_spin_calls widget_eq1 [7; 7; 100; 3; 2 ^ 40]).
Proof.
  apply (Tc_follows_equation_always 2%nat None [] [] ["T"; "P"] "" 0 None 1
           Example.σ0 widget_eq1); [reflexivity | lia | lia].
Defined.

Lemma showTc_without_DIPPR_witness :
  W.section widget_table = None ∧
  W.showTc 7 widget_table = Raise (AttributeError "labelTc") ∧
  W.spin_setValue 7 widget_table = Raise (AttributeError "eqDIPPR").
Proof.
  apply (showTc_without_DIPPR 2%nat (Some [[3; 4]; [5; 6]]) [] [] ["T"; "P"]
           "t" 0 None 1 Example.σ0 widget_table 7).
  reflexivity.
Defined.

Lemma spin_setValue_follows_witness :
  Tc_follows_equation widget_eq9 ∧
  ∃ d', W.section widget_eq9 = Some d' ∧
        QSpinBox.value (eqDIPPR.eqDIPPR (W.eqDIPPR d')) = 9.
Proof.
  eapply (spin_setValue_follows 9 widget_eq7 widget_eq9).
  - reflexivity.
  - reflexivity.
  - unfold selects_equation. simpl. lia.
  - lia.
  - simpl. lia.
  - reflexivity.
Defined.

(** ** What loading never does *)

Section open_frame.

Context {V T : Type} `{!Tabla V T}.

Variable loadtxt : string → result (ndarray V).
Variable translate : string → string → string.

Implicit Types (w : @W.widget V T) (σ : world).

Local Abbreviation open := (W.open loadtxt translate).

(** X8: whenever an exception leaves [open] (a missing file, a loader error
    that is no [ValueError], a [ValueError] without arguments), the widget
    and the world are as before the call: nothing was cleared and no message
    was shown. *)
Theorem open_raises_unchanged (fname : string) (e : exn) w σ :
  W.raised (open fname w σ) = Some e →
  W.self (open fname w σ) = w ∧ W.after (open fname w σ) = σ.
Proof.
  unfold W.open. case_bool_decide; [done |].
  destruct (fs σ !! fname) as [file |]; [| done].
  destruct (loadtxt file) as [data | e']; [done |].
  destruct e' as [| | | | | args]; try done.
  by destruct args.
Qed.

(** X9: [open] never writes: the files, the environment and the URLs opened
    are as before, and at most one message box is added to those shown. *)
Theorem open_reads_only (fname : string) w σ :
  fs (W.after (open fname w σ)) = fs σ ∧
  environ (W.after (open fname w σ)) = environ σ ∧
  openUrl (W.after (open fname w σ)) = openUrl σ ∧
  (critical (W.after (open fname w σ)) = critical σ ∨
   ∃ msg, critical (W.after (open fname w σ))
            = (translate "pychemqt" "Failed to load file", msg)
                :: critical σ ∧
          W.raised (open fname w σ) = None ∧
          W.self (open fname w σ) = w).
Proof.
  unfold W.open. case_bool_decide; [by auto |].
  destruct (fs σ !! fname) as [file |]; [| by auto].
  destruct (loadtxt file) as [data | e']; [by auto |].
  destruct e' as [| | | | | args]; try by auto.
  destruct args as [| er args]; [by auto |].
  simpl. repeat split; try done. right. by eexists.
Qed.

(** X10: a [ValueError] that carries no argument is not reported: [er.args[0]]
    raises [IndexError] inside the handler, which leaves [open]; no message
    is shown and the table is untouched. *)
Theorem open_ValueError_without_args (fname file : string) w σ :
  fname ≠ "" → fs σ !! fname = Some file →
  loadtxt file = Raise (ValueError []) →
  open fname w σ = W.mkOutcome w σ (Some IndexError).
Proof.
  intros Hname Hfile Hload. unfold W.open.
  rewrite bool_decide_eq_false_2 by done. by rewrite Hfile, Hload.
Qed.

(** X11: loading touches the table only: in every case the title, the column
    count and the DIPPR widgets (the selected equation, the visibility of
    Tc) are as before. *)
Theorem open_keeps_all_but_table (fname : string) w σ :
  W.title (W.self (open fname w σ)) = W.title w ∧
  W.columnas (W.self (open fname w σ)) = W.columnas w ∧
  W.section (W.self (open fname w σ)) = W.section w.
Proof.
  unfold W.open. case_bool_decide; [done |].
  destruct (fs σ !! fname) as [file |]; [| done].
  destruct (loadtxt file) as [data | e']; [done |].
  destruct e' as [| | | | | args]; try done.
  by destruct args.
Qed.

End open_frame.

Lemma open_raises_unchanged_witness :
  W.self (W.open Example.loadtxt Example.translate "none.txt" widget_table
            world_files) = widget_table ∧
  W.after (W.open Example.loadtxt Example.translate "none.txt" widget_table
             world_files) = world_files.
Proof.
  apply (open_raises_unchanged Example.loadtxt Example.translate "none.txt"
           (OSError "none.txt") widget_table world_files).
  reflexivity.
Defined.

Lemma open_ValueError_without_args_witness :
  W.open (λ _, Raise (ValueError [])) Example.translate "bad.txt"
    widget_table world_files
    = W.mkOutcome widget_table world_files (Some IndexError).
Proof.
  apply (open_ValueError_without_args (λ _, Raise (ValueError []))
           Example.translate "bad.txt" "1 x" widget_table world_files);
    [done | reflexivity | reflexivity].
Defined.

(** ** What saving does beside the case of the complete table *)

Lemma write_file_twice (fname c c' : string) (σ : world) :
  write_file fname c (write_file fname c' σ) = write_file fname c σ.
Proof. unfold write_file. simpl. by rewrite insert_insert_eq. Qed.

Section save_edges.

Context {V T : Type} `{!Tabla V T}.

Variable str : V → string.

Implicit Types (w : @W.widget V T) (σ : world) (row : list V).

Local Abbreviation row_text :=
  (λ row : list V, cat ((λ v, str v +:+ TAB) <$> row)).

(** With a file name, [save] replaces that file by a text that depends on
    the widget only, and raises or not whatever the world is. *)
Lemma save_shape (fname : string) w :
  fname ≠ "" →
  ∃ content e, ∀ σ,
    W.save str fname w σ = W.mkOutcome w (write_file fname content σ) e.
Proof.
  intros Hname. unfold W.save. rewrite bool_decide_eq_false_2 by done.
  destruct (W.write_headers _ _ _) as [file [e |]].
  - by eexists _, _.
  - destruct (W.write_rows _ _ _ _ _) as [file' e']. by eexists _, _.
Qed.

(** X12: [save] writes one file and nothing else: the widget, the environment,
    the messages shown and the URLs opened are as before, and so is every
    file but the one named. *)
Theorem save_writes_one_file (fname : string) w σ :
  W.self (W.save str fname w σ) = w ∧
  environ (W.after (W.save str fname w σ)) = environ σ ∧
  critical (W.after (W.save str fname w σ)) = critical σ ∧
  openUrl (W.after (W.save str fname w σ)) = openUrl σ ∧
  ∀ other, other ≠ fname →
    fs (W.after (W.save str fname w σ)) !! other = fs σ !! other.
Proof.
  destruct (decide (fname = "")) as [-> | Hname]; [done |].
  destruct (save_shape fname w Hname) as (content & e & ->). simpl.
  repeat split. intros other Hother. by apply lookup_insert_ne.
Qed.

(** X13: saving again under the same name changes nothing more: the second
    [save] leaves the world of the first and ends as the first did. *)
Theorem save_twice (fname : string) w σ :
  W.save str fname w (W.after (W.save str fname w σ))
    = W.save str fname w σ.
Proof.
  destruct (decide (fname = "")) as [-> | Hname]; [done |].
  destruct (save_shape fname w Hname) as (content & e & Hsave).
  rewrite !Hsave. simpl. by rewrite write_file_twice.
Qed.

Lemma write_headers_app (tabla : T) (l1 l2 : list nat) (file : string) :
  W.write_headers tabla (l1 ++ l2) file
    = match W.write_headers tabla l1 file with
      | (file', None) => W.write_headers tabla l2 file'
      | stopped => stopped
      end.
Proof.
  revert file. induction l1 as [| i l1 IH]; intros file; [done |].
  simpl. by destruct (horizontalHeaderItem tabla i).
Qed.

(** X14: when a column has no header item, [save] raises [AttributeError] after
    it replaced the file: what is left in the file is the title line, ['#']
    and the header texts of the columns before that one. *)
Theorem save_missing_header (fname : string) (headers : list string) w σ :
  fname ≠ "" →
  (length headers < columnCount (W.tabla w))%nat →
  (∀ i h, headers !! i = Some h →
          horizontalHeaderItem (W.tabla w) i = Some h) →
  horizontalHeaderItem (W.tabla w) (length headers) = None →
  W.save str fname w σ
    = W.mkOutcome w
        (write_file fname
           ("#" +:+ W.title w +:+ LF +:+
            "#" +:+ cat ((λ h, h +:+ TAB) <$> headers)) σ)
        (Some (AttributeError "text")).
Proof.
  intros Hname Hlen Hitem Hnone. unfold W.save.
  rewrite bool_decide_eq_false_2 by done.
  replace (columnCount (W.tabla w))
    with (length headers + S (columnCount (W.tabla w) - S (length headers)))%nat
    by lia.
  rewrite seq_app, write_headers_app, write_headers_texts by done.
  simpl. rewrite Hnone. by rewrite !app_assoc.
Qed.

(** The loop over the columns writes the first [n] values of a row that
    has at least [n]. *)
Lemma write_row_take (n : nat) row (file : string) :
  (n ≤ length row)%nat →
  W.write_row str row (seq 0 n) file = (file +:+ row_text (take n row), None).
Proof.
  intros Hn. rewrite <- (length_take_le row n Hn) at 1.
  apply write_row_values. intros i v Hi. simpl.
  by apply lookup_take_Some in Hi as [? _].
Qed.

Lemma write_rows_take (data rows : list (list V)) (n k : nat)
    (file : string) :
  (∀ i row, rows !! i = Some row → data !! (k + i)%nat = Some row) →
  Forall (λ row, n ≤ length row)%nat rows →
  W.write_rows str data (seq k (length rows)) n file
    = (file +:+ cat ((λ row, row_text row +:+ LF) <$> (take n <$> rows)),
       None).
Proof.
  revert k file. induction rows as [| row rows IH]; intros k file Hrow Hlen.
  - simpl. by rewrite app_nil_r.
  - apply Forall_cons in Hlen as [Hn Hlen].
    simpl. rewrite <- (Nat.add_0_r k) at 1. rewrite (Hrow 0%nat row eq_refl).
    rewrite write_row_take by done.
    rewrite IH; [| | done].
    + by rewrite !app_assoc.
    + intros i row' Hi. replace (S k + i)%nat with (k + S i)%nat by lia.
      by apply Hrow.
Qed.

(** X15: of rows that have more values than the table has columns, [save]
    writes the first [n] values only: the file is that of the rows cut to
    [n] values. *)
Theorem save_cuts_long_rows (fname : string) (headers : list string) w σ :
  fname ≠ "" →
  length headers = columnCount (W.tabla w) →
  (∀ i h, headers !! i = Some h →
          horizontalHeaderItem (W.tabla w) i = Some h) →
  Forall (λ row, columnCount (W.tabla w) ≤ length row)%nat (W.data w) →
  W.save str fname w σ
    = W.mkOutcome w
        (write_file fname
           (header_and_data str (W.title w) headers
              (take (columnCount (W.tabla w)) <$> W.data w)) σ) None.
Proof.
  intros Hname Hlen Hitem Hrows. unfold W.save.
  rewrite bool_decide_eq_false_2 by done.
  rewrite <- Hlen at 1. rewrite write_headers_texts by done.
  rewrite (write_rows_take (W.data w) (W.data w) _ 0) by done.
  unfold header_and_data. by rewrite !app_assoc.
Qed.

(** The loop over the columns raises [IndexError] on a row that ends
    before the last column. *)
Lemma write_row_short (m k : nat) row (file : string) :
  (k ≤ length row < k + m)%nat →
  (W.write_row str row (seq k m) file).2 = Some IndexError.
Proof.
  revert k file. induction m as [| m IH]; intros k file Hk; [lia |].
  simpl. destruct (row !! k) as [v |] eqn:Hv; [| done].
  apply IH. apply lookup_lt_Some in Hv. lia.
Qed.

Lemma write_rows_short (data rows : list (list V)) (n k : nat)
    (file : string) :
  (∀ i row, rows !! i = Some row → data !! (k + i)%nat = Some row) →
  Exists (λ row, length row < n)%nat rows →
  (W.write_rows str data (seq k (length rows)) n file).2 = Some IndexError.
Proof.
  revert k file. induction rows as [| row rows IH]; intros k file Hrow Hshort.
  - by apply Exists_nil in Hshort.
  - simpl. rewrite <- (Nat.add_0_r k) at 1. rewrite (Hrow 0%nat row eq_refl).
    destruct (decide (length row < n)%nat) as [Hlt | Hge].
    + pose proof (write_row_short n 0 row file) as Hstop.
      destruct (W.write_row str row (seq 0 n) file) as [file' [e |]];
        simpl in *; [apply Hstop; lia |].
      by discriminate Hstop; lia.
    + rewrite write_row_take by lia. apply IH.
      * intros i row' Hi. replace (S k + i)%nat with (k + S i)%nat by lia.
        by apply Hrow.
      * apply Exists_cons in Hshort as [? | ?]; [lia | done].
Qed.

(** X16: when some row of the data has fewer values than the table has
    columns, [save] raises [IndexError]; the file was replaced before and is
    left without the rest of the data. *)
Theorem save_short_row (fname : string) (headers : list string) w σ :
  fname ≠ "" →
  length headers = columnCount (W.tabla w) →
  (∀ i h, headers !! i = Some h →
          horizontalHeaderItem (W.tabla w) i = Some h) →
  Exists (λ row, length row < columnCount (W.tabla w))%nat (W.data w) →
  W.raised (W.save str fname w σ) = Some IndexError ∧
  is_Some (fs (W.after (W.save str fname w σ)) !! fname).
Proof.
  intros Hname Hlen Hitem Hshort. split.
  - unfold W.save. rewrite bool_decide_eq_false_2 by done.
    rewrite <- Hlen at 1. rewrite write_headers_texts by done.
    match goal with
    | |- context [W.write_rows str ?d _ ?n ?f] =>
        pose proof (write_rows_short d d n 0 f (λ _ _ Hi, Hi) Hshort) as Hstop
    end.
    by destruct (W.write_rows _ _ _ _ _) as [file e].
  - destruct (save_shape fname w Hname) as (content & e & ->). simpl.
    rewrite lookup_insert_eq. by eexists.
Qed.

Lemma write_headers_raises (tabla : T) (range : list nat) (file : string) :
  (W.write_headers tabla range file).2 = None ∨
  (W.write_headers tabla range file).2 = Some (AttributeError "text").
Proof.
  revert file. induction range as [| i range IH]; intros file; [by left |].
  simpl. destruct (horizontalHeaderItem tabla i); [apply IH | by right].
Qed.

Lemma write_row_raises row (range : list nat) (file : string) :
  (W.write_row str row range file).2 = None ∨
  (W.write_row str row range file).2 = Some IndexError.
Proof.
  revert file. induction range as [| i range IH]; intros file; [by left |].
  simpl. destruct (row !! i); [apply IH | by right].
Qed.

Lemma write_rows_raises (data : list (list V)) (range : list nat) (n : nat)
    (file : string) :
  (W.write_rows str data range n file).2 = None ∨
  (W.write_rows str data range n file).2 = Some IndexError.
Proof.
  revert file. induction range as [| i range IH]; intros file; [by left |].
  simpl. destruct (data !! i) as [row |]; [| by right].
  pose proof (write_row_raises row (seq 0 n) file) as Hrow.
  destruct (W.write_row str row (seq 0 n) file) as [file' [e |]];
    simpl in *; [| apply IH].
  destruct Hrow as [Hrow | Hrow]; [done | by right].
Qed.

(** X17: [save] with a file name either returns, or raises [OSError] from
    [open(fname, 'w')], exactly when the path cannot be opened for writing
    and then with nothing written, or [AttributeError], for a column
    without header item, or [IndexError], for a row that is too short; it
    raises nothing else. *)
Theorem save_raises_only (can_write : string → bool) (fname : string) w σ :
  let r := save_opening can_write str fname w σ in
  (W.raised r = None ∨ W.raised r = Some (OSError fname) ∨
   W.raised r = Some (AttributeError "text") ∨
   W.raised r = Some IndexError) ∧
  (W.raised r = Some (OSError fname) ↔
   fname ≠ "" ∧ can_write fname = false) ∧
  (W.raised r = Some (OSError fname) → W.self r = w ∧ W.after r = σ).
Proof.
  unfold save_opening. case_bool_decide as Hname; simpl.
  { split; [by left |]. split; [| done]. split; [done |]. by intros [? _]. }
  destruct (can_write fname); simpl.
  2: { split; [by right; left |]. done. }
  assert (W.raised (W.save str fname w σ) = None ∨
          W.raised (W.save str fname w σ) = Some (AttributeError "text") ∨
          W.raised (W.save str fname w σ) = Some IndexError) as Hraised.
  { unfold W.save. rewrite bool_decide_eq_false_2 by done.
    match goal with
    | |- context [W.write_headers ?t ?r ?f] =>
        pose proof (write_headers_raises t r f) as Hheaders
    end.
    destruct (W.write_headers _ _ _) as [file [e |]]; simpl in *.
    - destruct Hheaders as [? | ->]; [done | by right; left].
    - match goal with
      | |- context [W.write_rows str ?d ?r ?n ?f] =>
          pose proof (write_rows_raises d r n f) as Hrows
      end.
      destruct (W.write_rows _ _ _ _ _) as [file' e']. simpl in *.
      destruct Hrows as [-> | ->]; [by left | by right; right]. }
  split; [| split].
  - destruct Hraised as [-> | [-> | ->]]; auto.
  - split; [| by intros [_ ?]].
    intros Hos. destruct Hraised as [H' | [H' | H']];
      rewrite H' in Hos; done.
  - intros Hos. destruct Hraised as [H' | [H' | H']];
      rewrite H' in Hos; done.
Qed.

End save_edges.

Lemma save_missing_header_witness :
  W.save Example.str "out.txt" widget_no_third_header Example.σ0
    = W.mkOutcome widget_no_third_header
        (write_file "out.txt"
           ("#" +:+ W.title widget_no_third_header +:+ LF +:+
            "#" +:+ cat ((λ h, h +:+ TAB) <$> ["T"; "P"])) Example.σ0)
        (Some (AttributeError "text")).
Proof.
  apply (save_missing_header Example.str "out.txt" ["T"; "P"]
           widget_no_third_header Example.σ0).
  - done.
  - simpl. lia.
  - intros [| [| i]] h Hh; simpl in Hh; try done; by injection Hh as <-.
  - reflexivity.
Defined.

Lemma save_cuts_long_rows_witness :
  W.save Example.str "out.txt" widget_long_rows Example.σ0
    = W.mkOutcome widget_long_rows
        (write_file "out.txt"
           (header_and_data Example.str (W.title widget_long_rows)
              ["T"; "P"]
              (take (columnCount (W.tabla widget_long_rows))
                 <$> W.data widget_long_rows)) Example.σ0) None.
Proof.
  apply (save_cuts_long_rows Example.str "out.txt" ["T"; "P"]
           widget_long_rows Example.σ0).
  - done.
  - reflexivity.
  - intros [| [| i]] h Hh; simpl in Hh; try done; by injection Hh as <-.
  - repeat constructor.
Defined.

Lemma save_short_row_witness :
  W.raised (W.save Example.str "out.txt" widget_short_row Example.σ0)
    = Some IndexError ∧
  is_Some (fs (W.after (W.save Example.str "out.txt" widget_short_row
                          Example.σ0)) !! "out.txt").
Proof.
  apply (save_short_row Example.str "out.txt" ["T"; "P"] widget_short_row
           Example.σ0).
  - done.
  - reflexivity.
  - intros [| [| i]] h Hh; simpl in Hh; try done; by injection Hh as <-.
  - apply Exists_cons_tl, Exists_cons_hd. simpl. lia.
Defined.

(** ** The dialog in use *)

Section dialog_in_use.

Context {V T : Type} `{!Tabla V T}.

Variable translate : string → string → string.

Implicit Types (dlg : @D.dialog V T) (kw : @D.kwargs V) (σ : world).

Lemma run_slots_frame (slots : list D.slot) dlg σ :
  let r := foldl (λ st s, D.run_slot s st) (dlg, σ) slots in
  D.widget r.1 = D.widget dlg ∧ D.buttonBox r.1 = D.buttonBox dlg ∧
  D.helpFile r.1 = D.helpFile dlg ∧
  D.windowTitle (D.base r.1) = D.windowTitle (D.base dlg) ∧
  environ r.2 = environ σ ∧ fs r.2 = fs σ ∧ critical r.2 = critical σ.
Proof.
  revert dlg σ. induction slots as [| s slots IH]; intros dlg σ; [done |].
  simpl. destruct s; simpl.
  - destruct (IH (D.mk (D.close_with 1 (D.base dlg)) (D.helpFile dlg)
                    (D.widget dlg) (D.buttonBox dlg)) σ)
      as (? & ? & ? & ? & ? & ? & ?).
    done.
  - destruct (IH (D.mk (D.close_with 0 (D.base dlg)) (D.helpFile dlg)
                    (D.widget dlg) (D.buttonBox dlg)) σ)
      as (? & ? & ? & ? & ? & ? & ?).
    done.
  - destruct (IH dlg (QDesktopServices_openUrl (D.helpFile dlg) σ))
      as (? & ? & ? & ? & ? & ? & ?).
    done.
Qed.

(** The buttons that make the box emit a signal. *)
Lemma role_signal_Some (button : Z) (s : B.signal) :
  B.role_signal button = Some s →
  button ∈ B.accepting ++ B.rejecting ++ [B.Help].
Proof.
  unfold B.role_signal. rewrite !elem_of_app, list_elem_of_singleton.
  repeat case_bool_decide; try done; auto.
Qed.

(** X18: pressing a button of the box, whatever slots are connected, never
    changes the table widget, the buttons and connections, the help file or
    the window title, writes no file and shows no message; on a dialog that
    the constructor returned, a standard button that the box does not have
    (any but OK and Cancel, and Help when [help] is true) runs no slot. *)
Theorem press_changes_result_only (button : Z) dlg σ :
  (D.widget (D.press button dlg σ).1 = D.widget dlg ∧
   D.buttonBox (D.press button dlg σ).1 = D.buttonBox dlg ∧
   D.helpFile (D.press button dlg σ).1 = D.helpFile dlg ∧
   D.windowTitle (D.base (D.press button dlg σ).1)
     = D.windowTitle (D.base dlg) ∧
   environ (D.press button dlg σ).2 = environ σ ∧
   fs (D.press button dlg σ).2 = fs σ ∧
   critical (D.press button dlg σ).2 = critical σ) ∧
  (∀ (columnas : nat) (help : bool) (helpFile : string) kw σ0,
     D.__init__ translate columnas help helpFile kw σ0 = Ok dlg →
     button ≠ B.Ok → button ≠ B.Cancel →
     (help = true → button ≠ B.Help) →
     D.press button dlg σ = (dlg, σ)).
Proof.
  split; [apply run_slots_frame |].
  intros columnas help helpFile kw σ0 Hinit Hok Hcancel Hhelp.
  revert Hinit. unfold D.__init__.
  destruct (D.make_widget columnas kw σ0) as [widget |]; simpl; [| done].
  intros [= <-]. unfold D.press, B.clicked. simpl.
  destruct (B.role_signal button) as [s |] eqn:Hs;
    [| by destruct (B.has _ _)].
  apply role_signal_Some in Hs. unfold B.accepting, B.rejecting in Hs.
  set_unfold in Hs.
  destruct help.
  - specialize (Hhelp eq_refl). destruct_or!; subst; done.
  - destruct_or!; subst; done.
Qed.

Lemma init_clicked (columnas : nat) (help : bool) (helpFile : string)
    kw σ dlg :
  D.__init__ translate columnas help helpFile kw σ = Ok dlg →
  B.clicked B.Ok (D.buttonBox dlg) = [D.accept] ∧
  B.clicked B.Cancel (D.buttonBox dlg) = [D.reject].
Proof.
  unfold D.__init__.
  destruct (D.make_widget columnas kw σ) as [widget |]; simpl; [| done].
  intros [= <-]. by destruct help.
Qed.

(** X19: whatever button was pressed before, pressing OK leaves the dialog
    accepted and pressing Cancel leaves it rejected: the last of the two
    decides the result. *)
Theorem press_last_decides (columnas : nat) (help : bool)
    (helpFile : string) kw σ dlg (button : Z) (σ1 σ2 : world) :
  D.__init__ translate columnas help helpFile kw σ = Ok dlg →
  D.result_code (D.base (D.press B.Ok (D.press button dlg σ1).1 σ2).1)
    = Some 1 ∧
  D.result_code (D.base (D.press B.Cancel (D.press button dlg σ1).1 σ2).1)
    = Some 0.
Proof.
  intros Hinit. destruct (init_clicked _ _ _ _ _ _ Hinit) as [Hok Hcancel].
  destruct (run_slots_frame (B.clicked button (D.buttonBox dlg)) dlg σ1)
    as (_ & Hbb & _).
  unfold D.press at 1 3. fold (D.press button dlg σ1).
  unfold D.press in Hbb |- *. rewrite Hbb, Hok, Hcancel. done.
Qed.

(** X20: the dialog is built around the widget that [InputTableWidget] makes of
    the same keyword arguments: the [title] keyword, which the window title
    ignores, is the title of that widget (the first line [save] writes), and
    the constructor raises exactly what the widget's constructor raises. *)
Theorem dialog_wraps_widget (columnas : nat) (help : bool)
    (helpFile : string) kw σ :
  match D.make_widget columnas kw σ with
  | Ok widget =>
      ∃ dlg, D.__init__ translate columnas help helpFile kw σ = Ok dlg ∧
             D.widget dlg = widget ∧
             W.title widget = default "" (D.kw_title kw) ∧
             W.columnas widget = columnas ∧
             D.helpFile dlg = helpFile ∧
             D.result_code (D.base dlg) = None
  | Raise e => D.__init__ translate columnas help helpFile kw σ = Raise e
  end.
Proof.
  unfold D.__init__.
  destruct (D.make_widget columnas kw σ) as [widget | e] eqn:Hwidget;
    simpl; [| done].
  eexists. split; [done |]. simpl. split; [done |].
  revert Hwidget. unfold D.make_widget, W.__init__.
  destruct (os_environ "pychemqt" σ); simpl; [| done].
  destruct (default false (D.kw_DIPPR kw)); simpl.
  - destruct (eqDIPPR.__init__ _); simpl; [| done]. by intros [= <-].
  - by intros [= <-].
Qed.

(** X21: the demonstration dialog: with the variable [pychemqt] set to [dir] it
    is constructed, its Help button opens
    [dir + "/docs/_build/lib.reaction.html"], its widget has the DIPPR
    selector at equation 1 with Tc hidden and the title given; without the
    variable the block raises [KeyError]. *)
Theorem main_dialog (σ : world) :
  match environ σ !! "pychemqt" with
  | Some dir =>
      ∃ dlg, Main.main translate σ = Ok dlg ∧
        (∀ σ', D.press B.Help dlg σ'
                 = (dlg, QDesktopServices_openUrl
                           (dir +:+ "/docs/_build/lib.reaction.html") σ')) ∧
        W.title (D.widget dlg) = Main.titulo ∧
        ∃ d, W.section (D.widget dlg) = Some d ∧
             QSpinBox.value (eqDIPPR.eqDIPPR (W.eqDIPPR d)) = 1 ∧
             label_visible (W.labelTc d) = false ∧
             entrada_visible (W.tc d) = false
  | None => Main.main translate σ = Raise (KeyError "pychemqt")
  end.
Proof.
  unfold Main.main, D.__init__, D.make_widget, W.__init__, os_environ.
  destruct (environ σ !! "pychemqt") as [dir |]; simpl; [| done].
  eexists. split; [done |]. simpl. split; [done |]. split; [done |].
  by eexists.
Qed.

End dialog_in_use.

Lemma press_changes_result_only_witness :
  ∃ dlg : @D.dialog Z Example.grid,
    D.__init__ Example.translate 2%nat true "reaction.html" kwargs_main
      Example.σ0 = Ok dlg ∧
    D.press B.Save dlg Example.σ0 = (dlg, Example.σ0).
Proof.
  eexists. split; [reflexivity |].
  apply (proj2 (press_changes_result_only Example.translate B.Save _
                  Example.σ0)
           2%nat true "reaction.html" kwargs_main Example.σ0);
    [reflexivity | done | done | done].
Defined.

Lemma press_last_decides_witness :
  ∃ dlg : @D.dialog Z Example.grid,
    D.__init__ Example.translate 2%nat true "reaction.html" kwargs_main
      Example.σ0 = Ok dlg ∧
    D.result_code
      (D.base (D.press B.Ok (D.press B.Cancel dlg Example.σ0).1
                 Example.σ0).1) = Some 1 ∧
    D.result_code
      (D.base (D.press B.Cancel (D.press B.Cancel dlg Example.σ0).1
                 Example.σ0).1) = Some 0.
Proof.
  eexists. split; [reflexivity |].
  exact (press_last_decides Example.translate 2%nat true "reaction.html"
           kwargs_main Example.σ0 _ B.Cancel Example.σ0 Example.σ0 eq_refl).
Defined.
